(** * The evaluation-dataset preprocessor of google_cloud_pipeline_components

    A shallow embedding of
    [_implementation/model_evaluation/llm_evaluation_preprocessor/component.py]
    and the properties its specification states about it.

    Python values are modelled as follows.
    - A [str] is the list of its Unicode code points ([pystr]).
    - A value produced by [json.loads] is a [json] tree; a [dict] keeps its
      items in insertion order, as CPython does, so it is an association list.
    - Exceptions are the constructors of [exn]; [is_ValueError] is the
      [isinstance(e, ValueError)] test of the component.
    - The object store behind [epath.Path] is a finite map from rendered
      paths to text; reading a path that is not there raises, and writing
      raises when the text cannot be encoded.  The effects of one run are
      recorded in [events].
    - [json.loads] and the path algebra of [etils.epath] are library code the
      component only calls: they are the operations of the classes
      [JsonDecoder] and [PathLib]. *)

From Stdlib Require Import String Ascii Decimal.
From stdpp Require Import base option list numbers countable gmap.

Open Scope N_scope.
Open Scope list_scope.

(** ** Python strings *)

Abbreviation pystr := (list N).

Fixpoint py (s : string) : pystr :=
  match s with
  | EmptyString => []
  | String a s' => N_of_ascii a :: py s'
  end.

(** JSON text is easier to read with single quotes in this file: [jtext]
    turns each apostrophe of its argument into a double quote. *)
Definition jtext (s : string) : pystr :=
  map (fun c => if c =? 39 then 34 else c) (py s).

Fixpoint prefixb (p s : pystr) : bool :=
  match p, s with
  | [], _ => true
  | _ :: _, [] => false
  | a :: p', b :: s' => (a =? b) && prefixb p' s'
  end.

(** [sub in s] for two strings. *)
Fixpoint substrb (sub s : pystr) : bool :=
  prefixb sub s ||
  match s with
  | [] => false
  | _ :: s' => substrb sub s'
  end.

Definition pystr_eqb (a b : pystr) : bool := bool_decide (a = b).

(** [str.splitlines] boundaries ([_PyUnicode_IsLinebreak]). *)
Definition is_linebreak (c : N) : bool :=
  (c =? 10) || (c =? 11) || (c =? 12) || (c =? 13) || (c =? 28) ||
  (c =? 29) || (c =? 30) || (c =? 133) || (c =? 8232) || (c =? 8233).

(** [str.isspace] for one character ([_PyUnicode_IsWhitespace]). *)
Definition is_space (c : N) : bool :=
  ((9 <=? c) && (c <=? 13)) || ((28 <=? c) && (c <=? 32)) ||
  (c =? 133) || (c =? 160) || (c =? 5760) ||
  ((8192 <=? c) && (c <=? 8202)) || (c =? 8232) || (c =? 8233) ||
  (c =? 8239) || (c =? 8287) || (c =? 12288).

(** [s.splitlines()]: [cur] is the line being read, last character first.
    A carriage return followed by a line feed is one boundary, and the text
    after the last boundary is a line only when it is not empty. *)
Fixpoint splitlines_from (cur : pystr) (s : pystr) : list pystr :=
  match s with
  | [] => match cur with [] => [] | _ => [rev cur] end
  | c :: s' =>
      if is_linebreak c then
        rev cur ::
        match s' with
        | d :: s'' =>
            if (c =? 13) && (d =? 10) then splitlines_from [] s''
            else splitlines_from [] s'
        | [] => splitlines_from [] s'
        end
      else splitlines_from (c :: cur) s'
  end.

Definition splitlines (s : pystr) : list pystr := splitlines_from [] s.

Fixpoint lstrip (s : pystr) : pystr :=
  match s with
  | [] => []
  | c :: s' => if is_space c then lstrip s' else s
  end.

(** [s.strip()] *)
Definition strip (s : pystr) : pystr := rev (lstrip (rev (lstrip s))).

(** [s.replace(old, new, 1)] for a non-empty [old]. *)
Fixpoint replace_first (old new s : pystr) : pystr :=
  match s with
  | [] => []
  | c :: s' =>
      if prefixb old s then new ++ drop (length old) s
      else c :: replace_first old new s'
  end.

(** [sep.join(parts)] *)
Fixpoint join (sep : pystr) (parts : list pystr) : pystr :=
  match parts with
  | [] => []
  | [p] => p
  | p :: rest => p ++ sep ++ join sep rest
  end.

(** ** JSON values *)

(** A float is kept as the text [float.__repr__] prints for it; the three
    values outside JSON print as [NaN], [Infinity] and [-Infinity]. *)
Inductive float_sym := FDigit (d : N) | FPoint | FMinus | FPlus | FExp.

Inductive pyfloat :=
  | FNaN
  | FInfinity (negative : bool)
  | FRepr (syms : list float_sym).

#[warnings="-register-all"]
Inductive json :=
  | JNull
  | JBool (b : bool)
  | JInt (z : Z)
  | JFloat (f : pyfloat)
  | JStr (s : pystr)
  | JArr (items : list json)
  | JObj (items : list (pystr * json)).

(** The induction principle that reaches inside arrays and objects. *)
Section json_induction.
Variable P : json -> Prop.
Hypothesis Hnull : P JNull.
Hypothesis Hbool : forall b, P (JBool b).
Hypothesis Hint : forall z, P (JInt z).
Hypothesis Hfloat : forall f, P (JFloat f).
Hypothesis Hstr : forall s, P (JStr s).
Hypothesis Harr : forall l, Forall P l -> P (JArr l).
Hypothesis Hobj : forall kv, Forall (fun p => P p.2) kv -> P (JObj kv).

Fixpoint json_ind' (j : json) : P j :=
  match j with
  | JNull => Hnull
  | JBool b => Hbool b
  | JInt z => Hint z
  | JFloat f => Hfloat f
  | JStr s => Hstr s
  | JArr l =>
      Harr l ((fix all (l : list json) : Forall P l :=
                 match l with
                 | [] => @List.Forall_nil _ P
                 | a :: l' => @List.Forall_cons _ P a l' (json_ind' a) (all l')
                 end) l)
  | JObj kv =>
      Hobj kv ((fix all (kv : list (pystr * json)) : Forall (fun p => P p.2) kv :=
                  match kv with
                  | [] => @List.Forall_nil _ _
                  | (k, a) :: kv' =>
                      @List.Forall_cons _ (fun p => P p.2) (k, a) kv' (json_ind' a) (all kv')
                  end) kv)
  end.
End json_induction.

(** ** [json.dumps] *)

Definition hex_digit (n : N) : N := if n <? 10 then 48 + n else 87 + n.

(** ['{0:04x}'.format(n)] *)
Definition hex4 (n : N) : pystr :=
  [hex_digit (n / 4096 mod 16); hex_digit (n / 256 mod 16);
   hex_digit (n / 16 mod 16); hex_digit (n mod 16)].

Definition u_escape (n : N) : pystr := [92; 117] ++ hex4 n.

(** One character of a string literal; 92 is the backslash.  With
    [ensure_ascii] every character outside [' '..'~'] is escaped, above
    U+FFFF as a surrogate pair; without it only the quote, the backslash and
    the characters below U+0020 are. *)
Definition escape_char (ensure_ascii : bool) (c : N) : pystr :=
  if c =? 34 then [92; 34]
  else if c =? 92 then [92; 92]
  else if c =? 10 then [92; 110]
  else if c =? 13 then [92; 114]
  else if c =? 9 then [92; 116]
  else if c =? 12 then [92; 102]
  else if c =? 8 then [92; 98]
  else if c <? 32 then u_escape c
  else if ensure_ascii && (126 <? c) then
    if c <? 65536 then u_escape c
    else u_escape (55296 + (c - 65536) / 1024 mod 1024) ++
         u_escape (56320 + (c - 65536) mod 1024)
  else [c].

Definition encode_str (ensure_ascii : bool) (s : pystr) : pystr :=
  [34] ++ concat (map (escape_char ensure_ascii) s) ++ [34].

Fixpoint uint_repr (u : Decimal.uint) : pystr :=
  match u with
  | Nil => []
  | D0 u => 48 :: uint_repr u
  | D1 u => 49 :: uint_repr u
  | D2 u => 50 :: uint_repr u
  | D3 u => 51 :: uint_repr u
  | D4 u => 52 :: uint_repr u
  | D5 u => 53 :: uint_repr u
  | D6 u => 54 :: uint_repr u
  | D7 u => 55 :: uint_repr u
  | D8 u => 56 :: uint_repr u
  | D9 u => 57 :: uint_repr u
  end.

(** [int.__repr__] *)
Definition int_repr (z : Z) : pystr :=
  match Z.to_int z with
  | Decimal.Pos u => uint_repr u
  | Decimal.Neg u => 45 :: uint_repr u
  end.

Definition float_sym_char (x : float_sym) : N :=
  match x with
  | FDigit d => 48 + d mod 10
  | FPoint => 46
  | FMinus => 45
  | FPlus => 43
  | FExp => 101
  end.

Definition float_repr (f : pyfloat) : pystr :=
  match f with
  | FNaN => py "NaN"
  | FInfinity false => py "Infinity"
  | FInfinity true => py "-Infinity"
  | FRepr syms => map float_sym_char syms
  end.

(** [json.dumps(j, ensure_ascii=...)] with the default separators and no
    sorting of keys: the items of a [dict] come out in its own order. *)
Fixpoint dumps (ensure_ascii : bool) (j : json) : pystr :=
  match j with
  | JNull => py "null"
  | JBool true => py "true"
  | JBool false => py "false"
  | JInt z => int_repr z
  | JFloat f => float_repr f
  | JStr s => encode_str ensure_ascii s
  | JArr l => py "[" ++ join (py ", ") (map (dumps ensure_ascii) l) ++ py "]"
  | JObj kv =>
      py "{" ++
      join (py ", ")
        (map (fun p => encode_str ensure_ascii p.1 ++ py ": " ++ dumps ensure_ascii p.2) kv) ++
      py "}"
  end.

(** ** Python containers *)

Abbreviation dict := (list (pystr * json)).

(** [d.get(k)] *)
Fixpoint dict_get (d : dict) (k : pystr) : option json :=
  match d with
  | [] => None
  | (k', v) :: d' => if pystr_eqb k' k then Some v else dict_get d' k
  end.

(** [d[k] = v]: the value is replaced where the key is, a new key goes last. *)
Fixpoint dict_set (d : dict) (k : pystr) (v : json) : dict :=
  match d with
  | [] => [(k, v)]
  | (k', v') :: d' =>
      if pystr_eqb k' k then (k', v) :: d' else (k', v') :: dict_set d' k v
  end.

Definition dict_keys (d : dict) : list pystr := map fst d.

(** ** Exceptions *)

Inductive exn :=
  | ValueError (msg : pystr)
  | JSONDecodeError (doc : pystr)    (* a subclass of ValueError *)
  | UnicodeEncodeError (object : pystr)    (* a subclass of ValueError *)
  | KeyError (key : pystr)
  | TypeError
  | AttributeError
  | FileNotFoundError (path : pystr).

(** [isinstance(e, ValueError)] *)
Definition is_ValueError (e : exn) : bool :=
  match e with
  | ValueError _ | JSONDecodeError _ | UnicodeEncodeError _ => true
  | _ => false
  end.

(** Code that may raise returns [exn + A]; [let* x := m in k] runs [k] on
    the value of [m] and passes an exception of [m] on. *)
Definition ok {A} (a : A) : exn + A := inr a.

Definition bind_exn {A B} (m : exn + A) (k : A -> exn + B) : exn + B :=
  match m with
  | inl e => inl e
  | inr a => k a
  end.

Notation "'let*' x ':=' m 'in' k" := (bind_exn m (fun x => k))
  (at level 10, x name, m at level 100, k at level 200).

Definition raise {A} (e : exn) : exn + A := inl e.

(** [k in x] *)
Definition contains (x : json) (k : pystr) : exn + bool :=
  match x with
  | JObj d => ok (bool_decide (is_Some (dict_get d k)))
  | JStr s => ok (substrb k s)
  | JArr l =>
      ok (existsb (fun j => match j with JStr s => pystr_eqb s k | _ => false end) l)
  | _ => raise TypeError
  end.

(** [x[k]] for a string [k] *)
Definition getitem (x : json) (k : pystr) : exn + json :=
  match x with
  | JObj d => match dict_get d k with Some v => ok v | None => raise (KeyError k) end
  | _ => raise TypeError
  end.

(** [x[k] = v] for a string [k] *)
Definition setitem (x : json) (k : pystr) (v : json) : exn + json :=
  match x with
  | JObj d => ok (JObj (dict_set d k v))
  | _ => raise TypeError
  end.

(** [iter(x)] *)
Definition iterate (x : json) : exn + list json :=
  match x with
  | JArr l => ok l
  | JStr s => ok (map (fun c => JStr [c]) s)
  | JObj d => ok (map JStr (dict_keys d))
  | _ => raise TypeError
  end.

(** ** Library code the component calls *)

(** [json.loads]: the decoded value, or [None] where it raises
    [json.JSONDecodeError].  The interface is decoding and the decode error
    only: a text on which [json.loads] raises something else (an integer
    literal beyond the digit limit, nesting beyond the recursion limit) is
    not an input of this development, and no property below says which
    exceptions [json.loads] can raise. *)
Class JsonDecoder := { loads : pystr -> option json }.

(** [etils.epath]: a path is kept as the text [str] renders for it. *)
Class PathLib := {
  Path : pystr -> pystr;               (* str(epath.Path(s)) *)
  parent : pystr -> pystr;             (* p.parent *)
  name : pystr -> pystr;               (* p.name *)
  truediv : pystr -> pystr -> pystr    (* p / name *)
}.

(** ** The component's state and effects *)

Inductive event :=
  | LogProcessing (gcs_source_uri : pystr)        (* logging.info, line 94 *)
  | WriteOutputFile (path content : pystr)        (* write_text, line 76 *)
  | LogOutput (output_dirs : list pystr)          (* logging.info, line 97 *)
  | WriteManifest (path content : pystr)          (* write_text, lines 90 and 98 *)
  | LogException (e : exn).                       (* logging.exception, line 102 *)

(** [files] is the object store, [output_dirs] the variable of that name
    which [preprocess_file] appends to and the component rebinds to a list
    before its loop, [events] what the run did so far, oldest first. *)
Record state := State {
  files : gmap pystr pystr;
  output_dirs : list pystr;
  events : list event
}.

Definition Run (A : Type) : Type := state -> (exn + A) * state.

(** [let! x := m in k] sequences two steps of a run; the state an exception
    leaves behind is kept. *)
Definition pure {A} (a : A) : Run A := fun st => (inr a, st).

Definition bind_run {A B} (m : Run A) (k : A -> Run B) : Run B :=
  fun st =>
    match m st with
    | (inl e, st') => (inl e, st')
    | (inr a, st') => k a st'
    end.

Notation "'let!' x ':=' m 'in' k" := (bind_run m (fun x => k))
  (at level 10, x name, m at level 100, k at level 200).

Definition throw {A} (e : exn) : Run A := fun st => (inl e, st).

Definition lift {A} (r : exn + A) : Run A := fun st => (r, st).

Definition emit (ev : event) : Run unit :=
  fun st => (inr tt, State (files st) (output_dirs st) (events st ++ [ev])).

(** [p.read_text()] *)
Definition read_text (p : pystr) : Run pystr :=
  fun st =>
    match files st !! p with
    | Some text => (inr text, st)
    | None => (inl (FileNotFoundError p), st)
    end.

(** A surrogate code point, U+D800 to U+DFFF: UTF-8 has no encoding for
    it.  [json.loads] makes one from a lone [\ud800] escape. *)
Definition is_surrogate (c : N) : bool := (55296 <=? c) && (c <=? 57343).

(** [content.encode('utf-8')] does not raise. *)
Definition encodable (content : pystr) : bool :=
  forallb (fun c => negb (is_surrogate c)) content.

(** [p.write_text(content)]: the file is opened for writing, which empties
    it, and the text is encoded into it; a text that cannot be encoded
    raises [UnicodeEncodeError] and leaves the file empty.  [ev] records
    which statement wrote, with the text the file holds afterwards. *)
Definition write_text (ev : pystr -> pystr -> event) (p content : pystr) : Run unit :=
  fun st =>
    if encodable content then
      (inr tt, State (<[p := content]> (files st)) (output_dirs st)
                 (events st ++ [ev p content]))
    else
      (inl (UnicodeEncodeError content),
       State (<[p := []]> (files st)) (output_dirs st) (events st ++ [ev p []])).

Definition output_dirs_append (x : pystr) : Run unit :=
  fun st => (inr tt, State (files st) (output_dirs st ++ [x]) (events st)).

Definition output_dirs_assign (l : list pystr) : Run unit :=
  fun st => (inr tt, State (files st) l (events st)).

Definition output_dirs_read : Run (list pystr) :=
  fun st => (inr (output_dirs st), st).

(** ** The component *)

Definition GCS_ROOT_PREFIX : pystr := py "/gcs/".
Definition GS_PREFIX : pystr := py "gs://".
Definition INPUT_TEXT_KEY : pystr := py "input_text".
Definition DATA_KEY : pystr := py "data".
Definition PROMPT_KEY : pystr := py "prompt".

(** Lines 72-73: the record with its [prompt] filled in from [input_text].
    [data_obj] is mutated in place; nothing else refers to it. *)
Definition normalize (data_obj : json) : exn + json :=
  let* has_prompt := contains data_obj PROMPT_KEY in
  if has_prompt then ok data_obj
  else
    let* has_input_text := contains data_obj INPUT_TEXT_KEY in
    if has_input_text then
      let* v := getitem data_obj INPUT_TEXT_KEY in
      setitem data_obj PROMPT_KEY v
    else ok data_obj.

(** Line 71: [json_instance.get(DATA_KEY, [json_instance])], iterated.  Only
    a [dict] has [get]. *)
Definition data_objs (json_instance : json) : exn + list json :=
  match json_instance with
  | JObj d =>
      match dict_get d DATA_KEY with
      | Some x => iterate x
      | None => ok [json_instance]
      end
  | _ => raise AttributeError
  end.

(** Lines 71-75, the inner loop. *)
Fixpoint data_obj_loop (objs : list json) (content : pystr) (num_entries : N)
  : exn + (pystr * N) :=
  match objs with
  | [] => ok (content, num_entries)
  | data_obj :: rest =>
      let* data_obj' := normalize data_obj in
      data_obj_loop rest (content ++ dumps false data_obj' ++ [10]) (num_entries + 1)
  end.

(** How a call of the component ends. *)
Inductive outcome :=
  | Returned                 (* it ran to its end *)
  | Raised (e : exn)         (* an exception left it *)
  | Exited (status : Z).     (* sys.exit(status) *)

Section component.
Context `{JsonDecoder} `{PathLib}.

Definition json_loads (s : pystr) : exn + json :=
  match loads s with
  | Some j => ok j
  | None => raise (JSONDecodeError s)
  end.

(** Lines 64-75, the loop over the lines of the file. *)
Fixpoint line_loop (lines : list pystr) (content : pystr) (num_entries : N)
  : exn + (pystr * N) :=
  match lines with
  | [] => ok (content, num_entries)
  | dataset_line :: rest =>
      let dataset_line := strip dataset_line in
      match dataset_line with
      | [] => line_loop rest content num_entries
      | _ =>
          let* json_instance := json_loads dataset_line in
          let* objs := data_objs json_instance in
          let* r := data_obj_loop objs content num_entries in
          line_loop rest r.1 r.2
      end
  end.

Definition no_entries_message (dataset_file_uri : pystr) : pystr :=
  py "Dataset is inaccessible or contains no valid entries. Please" ++
  py " ensure your pipeline can access the dataset and that it is" ++
  py " properly formatted. Dataset URI: " ++ dataset_file_uri.

Definition output_file_path_of (dataset_file_uri output_path : pystr) : pystr :=
  truediv (parent output_path) (name (Path dataset_file_uri)).

(** Lines 57-85. *)
Definition preprocess_file (dataset_file_uri output_path : pystr) : Run unit :=
  let input_path := Path dataset_file_uri in
  let output_file_path := output_file_path_of dataset_file_uri output_path in
  let! text := read_text input_path in
  let! r := lift (line_loop (splitlines text) [] 0) in
  let! _ := write_text WriteOutputFile output_file_path r.1 in
  if r.2 =? 0 then throw (ValueError (no_entries_message dataset_file_uri))
  else
    output_dirs_append (replace_first GCS_ROOT_PREFIX GS_PREFIX output_file_path).

(** Lines 93-95. *)
Fixpoint source_loop (gcs_source_uris : list pystr) (output_path : pystr) : Run unit :=
  match gcs_source_uris with
  | [] => pure tt
  | gcs_source_uri :: rest =>
      let! _ := emit (LogProcessing gcs_source_uri) in
      let! _ := preprocess_file gcs_source_uri output_path in
      source_loop rest output_path
  end.

Definition manifest_text (dirs : list pystr) : pystr :=
  dumps true (JArr (map JStr dirs)).

(** Lines 89-98, the body of the [try]. *)
Definition try_body (gcs_source_uris : list pystr) (output_path : pystr) : Run unit :=
  let! _ := match gcs_source_uris with
            | [] => write_text WriteManifest output_path (manifest_text [])
            | _ => pure tt
            end in
  let! _ := output_dirs_assign [] in
  let! _ := source_loop gcs_source_uris output_path in
  let! dirs := output_dirs_read in
  let! _ := emit (LogOutput dirs) in
  write_text WriteManifest output_path (manifest_text dirs).

(** Lines 87-103.  The parameter [output_dirs] of the component is the
    local path of the manifest; the store is [fs]. *)
Definition evaluation_dataset_preprocessor
    (gcs_source_uris : list pystr) (output_dirs : pystr) (fs : gmap pystr pystr)
  : outcome * state :=
  let output_path := Path output_dirs in
  match try_body gcs_source_uris output_path (State fs [] []) with
  | (inr _, st) => (Returned, st)
  | (inl e, st) =>
      if is_ValueError e then (Raised e, st)
      else
        (Exited 13, (emit (LogException e) st).2)
  end.

End component.

(** ** Instances for the examples *)

Fixpoint assoc (tbl : list (pystr * json)) (s : pystr) : option json :=
  match tbl with
  | [] => None
  | (s', j) :: tbl' => if pystr_eqb s' s then Some j else assoc tbl' s
  end.

(** A decoder given by the finite table of the texts it accepts; every
    other text is rejected.  An example lists what [json.loads] returns for
    the lines it uses. *)
Definition table_decoder (tbl : list (pystr * json)) : JsonDecoder :=
  {| loads := assoc tbl |}.

Fixpoint last_segment (cur s : pystr) : pystr :=
  match s with
  | [] => cur
  | c :: s' => if c =? 47 then last_segment [] s' else last_segment (cur ++ [c]) s'
  end.

Definition dirname (s : pystr) : pystr :=
  take (length s - length (last_segment [] s) - 1)%nat s.

(** What [epath] computes on the plain paths [/a/b/c] and [gs://a/b/c] the
    examples use: the name is the text after the last slash, the parent the
    text before it. *)
Definition plain_paths : PathLib :=
  {| Path := fun s => s;
     parent := dirname;
     name := last_segment [];
     truediv := fun p n => p ++ [47] ++ n |}.

(** ** Notions the properties are stated with *)

(** What the two lines do to a [dict]. *)
Definition promoted (d : dict) : dict :=
  match dict_get d PROMPT_KEY, dict_get d INPUT_TEXT_KEY with
  | None, Some v => dict_set d PROMPT_KEY v
  | _, _ => d
  end.

(** One line per record: its [json.dumps] text and a line feed. *)
Definition jsonl (records : list json) : pystr :=
  concat (map (fun r => dumps false r ++ [10]) records).

(** [s.split('\n')], to read an output file back line by line. *)
Fixpoint split_lf_from (cur : pystr) (s : pystr) : list pystr :=
  match s with
  | [] => [rev cur]
  | c :: s' =>
      if c =? 10 then rev cur :: split_lf_from [] s'
      else split_lf_from (c :: cur) s'
  end.

Definition split_lf (s : pystr) : list pystr := split_lf_from [] s.

Definition no_lf (s : pystr) : Prop := Forall (fun c => c ≠ 10) s.

(** A line that adds no record: a blank line, or an empty aggregation
    list. *)
Definition yields_nothing `{JsonDecoder} (line : pystr) : Prop :=
  strip line = [] \/
  exists d, loads (strip line) = Some (JObj d)
            /\ dict_get d DATA_KEY = Some (JArr []).

(** The entry of [output_dirs] for a source: the path of its output file
    with the first [/gcs/] turned into [gs://]. *)
Definition derived_dir `{PathLib} (dataset_file_uri output_path : pystr) : pystr :=
  replace_first GCS_ROOT_PREFIX GS_PREFIX
    (output_file_path_of dataset_file_uri output_path).

(** The events of [preprocess_file] and of the loop around it. *)
Definition is_loop_event (ev : event) : bool :=
  match ev with
  | LogProcessing _ | WriteOutputFile _ _ => true
  | _ => false
  end.

Definition is_manifest_write (ev : event) : bool :=
  match ev with
  | WriteManifest _ _ => true
  | _ => false
  end.

(** The records of one non-blank line: it decodes, the decoded value gives
    the elements to loop over, and each element normalizes to the record at
    its place. *)
Definition line_records `{JsonDecoder} (line : pystr) (records : list json) : Prop :=
  exists json_instance objs,
    loads (strip line) = Some json_instance
    /\ data_objs json_instance = ok objs
    /\ Forall2 (fun o r => normalize o = ok r) objs records.

(** Closes [no_lf (py ...)] for a literal. *)
Ltac no_lf_literal :=
  lazymatch goal with
  | |- no_lf (py _) =>
      unfold no_lf; vm_compute; repeat (constructor; [discriminate | ]); constructor
  end.

(** * The component on concrete inputs *)

Module Demo.

Definition hello : json := JObj [(py "input_text", JStr (py "hello"))].

Definition hi_hello : json :=
  JObj [(py "prompt", JStr (py "hi")); (py "input_text", JStr (py "hello"))].

Definition a_b : json :=
  JObj [(py "data",
         JArr [JObj [(py "input_text", JStr (py "a"))];
               JObj [(py "prompt", JStr (py "b"))]])].

(** What [json.loads] answers for the lines of the files below; the line
    [{] is not in the table: it does not decode. *)
Definition decoder : JsonDecoder :=
  table_decoder
    [(jtext "{'input_text': 'hello'}", hello);
     (jtext "{'prompt': 'hi', 'input_text': 'hello'}", hi_hello);
     (jtext "{'data': [{'input_text': 'a'}, {'prompt': 'b'}]}", a_b);
     (jtext "{'data': []}", JObj [(py "data", JArr [])])].

Definition records_uri : pystr := py "gs://b/in/records.jsonl".
Definition legacy_uri : pystr := py "gs://b/in/legacy.jsonl".
Definition blank_uri : pystr := py "gs://b/in/blank.jsonl".
Definition empty_uri : pystr := py "gs://b/in/empty.jsonl".
Definition broken_uri : pystr := py "gs://b/in/broken.jsonl".

Definition records_text : pystr :=
  jtext "{'prompt': 'hi', 'input_text': 'hello'}" ++ [10] ++
  py "   " ++ [10] ++
  jtext "{'data': [{'input_text': 'a'}, {'prompt': 'b'}]}" ++ [10].

Definition store : gmap pystr pystr :=
  {[ records_uri := records_text;
     legacy_uri := jtext "{'input_text': 'hello'}" ++ [10];
     blank_uri := py "  " ++ [10; 10] ++ jtext "{'data': []}" ++ [10];
     empty_uri := [];
     broken_uri := py "{" ++ [10] ]}.

(** The path KFP gives the component for its output [output_dirs]. *)
Definition manifest_path : pystr := py "/gcs/b/out/output_dirs".

(** The output file of [records_uri], as it should come out. *)
Definition records_output : pystr :=
  jtext "{'prompt': 'hi', 'input_text': 'hello'}" ++ [10] ++
  jtext "{'input_text': 'a', 'prompt': 'a'}" ++ [10] ++
  jtext "{'prompt': 'b'}" ++ [10].

Definition empty_output_path : pystr := py "/gcs/b/out/empty.jsonl".

Definition run (gcs_source_uris : list pystr) : outcome * state :=
  @evaluation_dataset_preprocessor decoder plain_paths
    gcs_source_uris manifest_path store.

End Demo.

(** ** Notions the further properties are stated with *)

(** The sources the run announced with its log line, oldest first. *)
Definition logged_sources (evs : list event) : list pystr :=
  omap (fun ev => match ev with LogProcessing uri => Some uri | _ => None end) evs.

(** A number, a boolean or [null]. *)
Definition is_scalar (j : json) : bool :=
  match j with
  | JNull | JBool _ | JInt _ | JFloat _ => true
  | _ => false
  end.

(** No character of [s] is a boundary for [str.splitlines]. *)
Definition one_line (s : pystr) : Prop := Forall (fun c => is_linebreak c = false) s.

(** Every character of [s] is in [' '..'~']. *)
Definition printable_ascii (s : pystr) : Prop := Forall (fun c => 32 <= c <= 126) s.


(** Inputs that reach the edges of the component. *)
Module Edge.

Definition promoted_hello : json :=
  JObj [(py "input_text", JStr (py "hello")); (py "prompt", JStr (py "hello"))].

Definition decoder : JsonDecoder :=
  table_decoder
    [(jtext "[1, 2]", JArr [JInt 1; JInt 2]);
     (jtext "{'data': 'ab'}", JObj [(py "data", JStr (py "ab"))]);
     (jtext "{'data': [{'prompt': 'p'}, 7]}",
      JObj [(py "data", JArr [JObj [(py "prompt", JStr (py "p"))]; JInt 7])]);
     (jtext "{'input_text': 'hello'}", Demo.hello);
     (jtext "{'input_text': 'hello', 'prompt': 'hello'}", promoted_hello);
     (jtext "{'prompt': 'b'}", JObj [(py "prompt", JStr (py "b"))])].

Definition array_uri : pystr := py "gs://b/in/array.jsonl".
Definition chars_uri : pystr := py "gs://b/in/chars.jsonl".
Definition scalar_uri : pystr := py "gs://b/in/scalar.jsonl".
Definition first_uri : pystr := py "gs://b/one/x.jsonl".
Definition second_uri : pystr := py "gs://b/two/x.jsonl".
Definition missing_uri : pystr := py "gs://b/in/missing.jsonl".

Definition store : gmap pystr pystr :=
  {[ array_uri := jtext "[1, 2]" ++ [10];
     chars_uri := jtext "{'data': 'ab'}" ++ [10];
     scalar_uri := jtext "{'data': [{'prompt': 'p'}, 7]}" ++ [10];
     first_uri := jtext "{'input_text': 'hello'}" ++ [10];
     second_uri := jtext "{'prompt': 'b'}" ++ [10] ]}.

Definition manifest_path : pystr := py "/gcs/b/out/output_dirs".

Definition run (gcs_source_uris : list pystr) : outcome * state :=
  @evaluation_dataset_preprocessor decoder plain_paths
    gcs_source_uris manifest_path store.

(** A line whose record holds a lone surrogate, written as the escape
    backslash, [ud800]; [json.loads] decodes it to the string of the one
    code point U+D800. *)
Definition surrogate_line : pystr :=
  jtext "{'prompt': '" ++ [92] ++ py "ud800" ++ jtext "'}".

Definition surrogate_decoder : JsonDecoder :=
  table_decoder [(surrogate_line, JObj [(py "prompt", JStr [55296])])].

Definition surrogate_uri : pystr := py "gs://b/in/s.jsonl".

Definition surrogate_store : gmap pystr pystr :=
  {[ surrogate_uri := surrogate_line ++ [10] ]}.

End Edge.

(** Closes [printable_ascii (py ...)] for a literal. *)
Ltac printable_literal :=
  lazymatch goal with
  | |- printable_ascii (py _) =>
      unfold printable_ascii; vm_compute;
      repeat (constructor; [split; discriminate | ]); constructor
  end.

(** * Properties *)

(** ** Strings and dictionaries *)

Lemma pystr_eqb_eq (a b : pystr) : pystr_eqb a b = true <-> a = b.
Proof. unfold pystr_eqb. apply bool_decide_eq_true. Qed.

Lemma pystr_eqb_refl (a : pystr) : pystr_eqb a a = true.
Proof. by apply pystr_eqb_eq. Qed.

Lemma pystr_eqb_neq (a b : pystr) : a ≠ b -> pystr_eqb a b = false.
Proof. intros Hne. unfold pystr_eqb. by apply bool_decide_eq_false. Qed.

Lemma dict_set_absent (d : dict) k v :
  dict_get d k = None -> dict_set d k v = d ++ [(k, v)].
Proof.
  induction d as [ | [k' v'] d IH ]; simpl; [done | ].
  destruct (pystr_eqb k' k); [done | ].
  intros Hd. by rewrite IH.
Qed.

Lemma dict_get_set_eq (d : dict) k v : dict_get (dict_set d k v) k = Some v.
Proof.
  induction d as [ | [k' v'] d IH ]; simpl.
  - by rewrite pystr_eqb_refl.
  - destruct (pystr_eqb k' k) eqn:E; simpl; by rewrite E.
Qed.

Lemma dict_get_set_ne (d : dict) k k' v :
  k ≠ k' -> dict_get (dict_set d k v) k' = dict_get d k'.
Proof.
  intros Hne. induction d as [ | [k0 v0] d IH ]; simpl.
  - by rewrite pystr_eqb_neq.
  - destruct (pystr_eqb k0 k) eqn:E; simpl.
    + apply pystr_eqb_eq in E as ->. by rewrite pystr_eqb_neq.
    + by rewrite IH.
Qed.

Lemma PROMPT_KEY_ne_INPUT_TEXT_KEY : PROMPT_KEY ≠ INPUT_TEXT_KEY.
Proof. discriminate. Qed.

(** ** The record normalizer (lines 72-73) *)

Lemma normalize_dict (d : dict) : normalize (JObj d) = ok (JObj (promoted d)).
Proof.
  unfold normalize, promoted, contains, getitem, setitem, bind_exn, ok.
  destruct (dict_get d PROMPT_KEY) as [p | ]; [done | ].
  by destruct (dict_get d INPUT_TEXT_KEY) as [v | ].
Qed.

Lemma promoted_prompt (d : dict) :
  dict_get (promoted d) PROMPT_KEY =
  match dict_get d PROMPT_KEY with
  | Some p => Some p
  | None => dict_get d INPUT_TEXT_KEY
  end.
Proof.
  unfold promoted.
  destruct (dict_get d PROMPT_KEY) as [p | ] eqn:Hp; [done | ].
  destruct (dict_get d INPUT_TEXT_KEY) as [v | ] eqn:Hi; [ | done].
  apply dict_get_set_eq.
Qed.

Lemma promoted_other (d : dict) k :
  k ≠ PROMPT_KEY -> dict_get (promoted d) k = dict_get d k.
Proof.
  intros Hk. unfold promoted.
  destruct (dict_get d PROMPT_KEY) as [p | ]; [done | ].
  destruct (dict_get d INPUT_TEXT_KEY) as [v | ]; [ | done].
  by apply dict_get_set_ne.
Qed.

Lemma promoted_idem (d : dict) : promoted (promoted d) = promoted d.
Proof.
  unfold promoted at 1. rewrite promoted_prompt.
  destruct (dict_get d PROMPT_KEY) as [p | ] eqn:Hp; [done | ].
  rewrite (promoted_other d INPUT_TEXT_KEY) by (symmetry; apply PROMPT_KEY_ne_INPUT_TEXT_KEY).
  destruct (dict_get d INPUT_TEXT_KEY) as [v | ] eqn:Hi; [done | ].
  unfold promoted. by rewrite Hp, Hi.
Qed.

(** A value that [normalize] accepts and is not a [dict] comes back as it
    was. *)
Lemma normalize_not_dict (j j' : json) :
  (forall d, j ≠ JObj d) -> normalize j = ok j' -> j' = j.
Proof.
  intros Hnd. unfold normalize.
  destruct j as [ | b | z | f | s | l | d ]; simpl; try discriminate.
  - destruct (substrb PROMPT_KEY s); simpl; [by intros [= <-] | ].
    destruct (substrb INPUT_TEXT_KEY s); simpl; [discriminate | by intros [= <-]].
  - destruct (existsb _ l); simpl; [by intros [= <-] | ].
    destruct (existsb _ l); simpl; [discriminate | by intros [= <-]].
  - by destruct (Hnd d).
Qed.

(** C4.  For a record that is a mapping, normalization answers a mapping:
    the record itself unless [prompt] is absent and [input_text] present,
    and then the record with one more item, [prompt], last, holding the
    value of [input_text].  So a [prompt] that was there reads as before, a
    missing one reads as [input_text] does, and every other field, with
    [input_text] among them, reads as before. *)
Theorem normalize_promotes_input_text (d : dict) :
  exists d',
    normalize (JObj d) = ok (JObj d')
    /\ d' = match dict_get d PROMPT_KEY, dict_get d INPUT_TEXT_KEY with
            | None, Some v => d ++ [(PROMPT_KEY, v)]
            | _, _ => d
            end
    /\ dict_get d' INPUT_TEXT_KEY = dict_get d INPUT_TEXT_KEY
    /\ forall k,
         dict_get d' k =
           if bool_decide (k = PROMPT_KEY) then
             match dict_get d PROMPT_KEY with
             | Some p => Some p
             | None => dict_get d INPUT_TEXT_KEY
             end
           else dict_get d k.
Proof.
  exists (promoted d). split; [apply normalize_dict | ]. split; [ | split].
  - unfold promoted.
    destruct (dict_get d PROMPT_KEY) as [p | ] eqn:Hp; [done | ].
    destruct (dict_get d INPUT_TEXT_KEY) as [v | ]; [ | done].
    by rewrite dict_set_absent.
  - apply promoted_other. symmetry. apply PROMPT_KEY_ne_INPUT_TEXT_KEY.
  - intros k. case_bool_decide as Hk.
    + subst k. apply promoted_prompt.
    + by apply promoted_other.
Qed.

(** C10.  Normalizing twice is normalizing once: whatever the first pass
    answers, the second answers the same; for a mapping the first pass
    always answers, so the second leaves its record as it is. *)
Theorem normalize_idempotent (r : json) :
  bind_exn (normalize r) normalize = normalize r
  /\ forall d, exists d',
       normalize (JObj d) = ok (JObj d') /\ normalize (JObj d') = ok (JObj d').
Proof.
  split.
  - destruct (normalize r) as [e | r'] eqn:Hr; simpl; [done | ].
    destruct r as [ | b | z | f | s | l | d ];
      try (pose proof Hr as Hr'; apply normalize_not_dict in Hr' as ->;
           [exact Hr | discriminate]).
    rewrite normalize_dict in Hr. injection Hr as <-.
    by rewrite normalize_dict, promoted_idem.
  - intros d. exists (promoted d).
    by rewrite !normalize_dict, promoted_idem.
Qed.

(** ** The text of an output file *)

Lemma jsonl_app (r1 r2 : list json) : jsonl (r1 ++ r2) = jsonl r1 ++ jsonl r2.
Proof. unfold jsonl. by rewrite map_app, concat_app. Qed.

Lemma no_lf_app (a b : pystr) : no_lf a -> no_lf b -> no_lf (a ++ b).
Proof. unfold no_lf. intros. by apply Forall_app. Qed.

Lemma no_lf_concat (l : list pystr) : Forall no_lf l -> no_lf (concat l).
Proof.
  induction 1 as [ | a l Ha _ IH ]; simpl; [constructor | by apply no_lf_app].
Qed.

Lemma no_lf_join (sep : pystr) (l : list pystr) :
  no_lf sep -> Forall no_lf l -> no_lf (join sep l).
Proof.
  intros Hsep. induction 1 as [ | a l Ha Hl IH ]; simpl; [constructor | ].
  destruct l as [ | b l ]; [done | ].
  apply no_lf_app; [done | ]. by apply no_lf_app.
Qed.

Lemma hex_digit_no_lf (n : N) : hex_digit n ≠ 10.
Proof. unfold hex_digit. destruct (n <? 10) eqn:E; lia. Qed.

Lemma u_escape_no_lf (n : N) : no_lf (u_escape n).
Proof.
  unfold u_escape, hex4, no_lf. simpl.
  repeat (constructor; [first [lia | apply hex_digit_no_lf] | ]). constructor.
Qed.

Lemma escape_char_no_lf (e : bool) (c : N) : no_lf (escape_char e c).
Proof.
  unfold escape_char.
  destruct (c =? 34); [repeat (constructor; [lia | ]); constructor | ].
  destruct (c =? 92); [repeat (constructor; [lia | ]); constructor | ].
  destruct (c =? 10) eqn:Hlf; [repeat (constructor; [lia | ]); constructor | ].
  destruct (c =? 13); [repeat (constructor; [lia | ]); constructor | ].
  destruct (c =? 9); [repeat (constructor; [lia | ]); constructor | ].
  destruct (c =? 12); [repeat (constructor; [lia | ]); constructor | ].
  destruct (c =? 8); [repeat (constructor; [lia | ]); constructor | ].
  destruct (c <? 32); [apply u_escape_no_lf | ].
  destruct (e && (126 <? c)).
  - destruct (c <? 65536); [apply u_escape_no_lf | ].
    apply no_lf_app; apply u_escape_no_lf.
  - apply N.eqb_neq in Hlf. by repeat constructor.
Qed.

Lemma encode_str_no_lf (e : bool) (s : pystr) : no_lf (encode_str e s).
Proof.
  unfold encode_str. apply no_lf_app; [constructor; [lia | constructor] | ].
  apply no_lf_app; [ | constructor; [lia | constructor]].
  apply no_lf_concat, Forall_fmap, Forall_forall. intros c _.
  apply escape_char_no_lf.
Qed.

Lemma uint_repr_no_lf (u : Decimal.uint) : no_lf (uint_repr u).
Proof. induction u; simpl; constructor; (lia || done). Qed.

Lemma int_repr_no_lf (z : Z) : no_lf (int_repr z).
Proof.
  unfold int_repr. destruct (Z.to_int z); [ | constructor; [lia | ]];
    apply uint_repr_no_lf.
Qed.

Lemma float_repr_no_lf (f : pyfloat) : no_lf (float_repr f).
Proof.
  destruct f as [ | [ | ] | syms ]; simpl;
    try (unfold no_lf; repeat (constructor; [lia | ]); constructor).
  apply Forall_fmap, Forall_forall. intros x _.
  destruct x as [d | | | | ]; simpl; try lia.
  generalize (d mod 10). intros m. lia.
Qed.

(** [json.dumps] never puts a line feed in its text: inside a string it
    writes the two characters backslash, n. *)
Lemma dumps_no_lf (e : bool) (j : json) : no_lf (dumps e j).
Proof.
  induction j as [ | [ | ] | z | f | s | l IH | kv IH ] using json_ind';
    cbn [dumps]; try no_lf_literal.
  - apply int_repr_no_lf.
  - apply float_repr_no_lf.
  - apply encode_str_no_lf.
  - apply no_lf_app; [no_lf_literal | ].
    apply no_lf_app; [ | no_lf_literal].
    apply no_lf_join; [no_lf_literal | ].
    by apply Forall_fmap.
  - apply no_lf_app; [no_lf_literal | ].
    apply no_lf_app; [ | no_lf_literal].
    apply no_lf_join; [no_lf_literal | ].
    apply Forall_fmap. eapply Forall_impl; [exact IH | ].
    intros [k v] Hv. cbn [fst snd compose] in *.
    apply no_lf_app; [apply encode_str_no_lf | ].
    apply no_lf_app; [no_lf_literal | done].
Qed.

Lemma split_lf_from_line (cur a s : pystr) :
  no_lf a -> split_lf_from cur (a ++ 10 :: s) = (rev cur ++ a) :: split_lf_from [] s.
Proof.
  intros Ha. revert cur.
  induction Ha as [ | c a Hc _ IH ]; intros cur; simpl.
  - by rewrite app_nil_r.
  - apply N.eqb_neq in Hc as ->. rewrite IH. simpl. by rewrite <- app_assoc.
Qed.

Lemma split_lf_jsonl (records : list json) :
  split_lf (jsonl records) = map (dumps false) records ++ [[]].
Proof.
  unfold split_lf. induction records as [ | r records IH ]; [done | ].
  change (jsonl (r :: records)) with ((dumps false r ++ [10]) ++ jsonl records).
  rewrite <- app_assoc. simpl.
  rewrite split_lf_from_line by apply dumps_no_lf. simpl. by rewrite IH.
Qed.

(** ** The two loops of [preprocess_file] *)

Lemma bind_exn_ok {A B} (m : exn + A) (k : A -> exn + B) (b : B) :
  bind_exn m k = inr b -> exists a, m = inr a /\ k a = inr b.
Proof. destruct m as [e | a]; simpl; [discriminate | eauto]. Qed.

(** The inner loop succeeds exactly when every element normalizes, and then
    it has appended one line per element, in order. *)
Lemma data_obj_loop_ok (objs objs' : list json) (content : pystr) (n : N) :
  Forall2 (fun o o' => normalize o = ok o') objs objs' ->
  data_obj_loop objs content n =
    ok (content ++ jsonl objs', n + N.of_nat (length objs')).
Proof.
  intros Hall. revert content n.
  induction Hall as [ | o o' objs objs' Ho _ IH ]; intros content n; simpl.
  - unfold jsonl; simpl. by rewrite app_nil_r, N.add_0_r.
  - rewrite Ho; simpl. rewrite IH. unfold ok. f_equal. f_equal.
    + change (jsonl (o' :: objs')) with ((dumps false o' ++ [10]) ++ jsonl objs').
      by rewrite <- !app_assoc.
    + lia.
Qed.

Lemma data_obj_loop_inv (objs : list json) (content content' : pystr) (n n' : N) :
  data_obj_loop objs content n = inr (content', n') ->
  exists objs',
    Forall2 (fun o o' => normalize o = ok o') objs objs'
    /\ content' = content ++ jsonl objs'
    /\ n' = n + N.of_nat (length objs').
Proof.
  revert content n.
  induction objs as [ | o objs IH ]; intros content n; simpl.
  - intros [= <- <-]. exists []. unfold jsonl; simpl.
    by rewrite app_nil_r, N.add_0_r.
  - intros Hloop. apply bind_exn_ok in Hloop as (o' & Ho & Hloop).
    apply IH in Hloop as (objs' & Hall & -> & ->).
    exists (o' :: objs'). split; [by constructor | ]. split.
    + change (jsonl (o' :: objs')) with ((dumps false o' ++ [10]) ++ jsonl objs').
      by rewrite <- !app_assoc.
    + simpl length. lia.
Qed.

Lemma Forall2_normalize_dicts (ds : list dict) :
  Forall2 (fun o o' => normalize o = ok o') (map JObj ds) (map (JObj ∘ promoted) ds).
Proof.
  induction ds as [ | d ds IH ]; simpl; constructor; [apply normalize_dict | done].
Qed.

Section loops.
Context `{JsonDecoder} `{PathLib}.

Lemma line_loop_blank (line : pystr) (rest : list pystr) content n :
  strip line = [] ->
  line_loop (line :: rest) content n = line_loop rest content n.
Proof. intros Hb. simpl. by rewrite Hb. Qed.

Lemma line_loop_line (line : pystr) (rest : list pystr) content n :
  strip line ≠ [] ->
  line_loop (line :: rest) content n =
    let* json_instance := json_loads (strip line) in
    let* objs := data_objs json_instance in
    let* r := data_obj_loop objs content n in
    line_loop rest r.1 r.2.
Proof. intros Hnb. simpl. by destruct (strip line). Qed.

Lemma line_loop_app (l1 l2 : list pystr) content n :
  line_loop (l1 ++ l2) content n =
    let* r := line_loop l1 content n in line_loop l2 r.1 r.2.
Proof.
  revert content n. induction l1 as [ | line l1 IH ]; intros content n; [done | ].
  rewrite <- app_comm_cons.
  destruct (decide (strip line = [])) as [Hb | Hnb].
  - rewrite !line_loop_blank by done. apply IH.
  - rewrite !line_loop_line by done. simpl.
    destruct (json_loads (strip line)) as [e | j]; simpl; [done | ].
    destruct (data_objs j) as [e | objs]; simpl; [done | ].
    destruct (data_obj_loop objs content n) as [e | r]; simpl; [done | ].
    apply IH.
Qed.

(** What a successful pass over the lines of a file has built: the lines
    of the normalized records, as many as it counted. *)
Lemma line_loop_inv (lines : list pystr) content n content' n' :
  line_loop lines content n = inr (content', n') ->
  exists records,
    content' = content ++ jsonl records
    /\ n' = n + N.of_nat (length records)
    /\ Forall (fun r => exists o, normalize o = ok r) records.
Proof.
  revert content n.
  induction lines as [ | line lines IH ]; intros content n.
  - simpl. intros [= <- <-]. exists []. unfold jsonl; simpl.
    by rewrite app_nil_r, N.add_0_r.
  - destruct (decide (strip line = [])) as [Hb | Hnb].
    + rewrite line_loop_blank by done. apply IH.
    + rewrite line_loop_line by done. simpl. intros Hloop.
      apply bind_exn_ok in Hloop as (j & _ & Hloop).
      apply bind_exn_ok in Hloop as (objs & _ & Hloop).
      apply bind_exn_ok in Hloop as ([c1 n1] & Hobjs & Hloop).
      apply data_obj_loop_inv in Hobjs as (objs' & Hnorm & -> & ->).
      apply IH in Hloop as (records & -> & -> & Hrecords).
      exists (objs' ++ records). rewrite jsonl_app, length_app, Nat2N.inj_add.
      split; [by rewrite app_assoc | ]. split; [by rewrite N.add_assoc | ].
      apply Forall_app. split; [ | done].
      clear -Hnorm. induction Hnorm; constructor; eauto.
Qed.

(** A file of blank lines and empty aggregation lists yields nothing. *)
Lemma line_loop_nothing (lines : list pystr) content n :
  Forall yields_nothing lines -> line_loop lines content n = ok (content, n).
Proof.
  induction 1 as [ | line lines Hline _ IH ]; [done | ].
  destruct (decide (strip line = [])) as [Hb | Hnb].
  - by rewrite line_loop_blank.
  - destruct Hline as [Hb | (d & Hd & Hdata)]; [done | ].
    rewrite line_loop_line by done.
    unfold json_loads. rewrite Hd. simpl. by rewrite Hdata.
Qed.
End loops.

(** ** Texts that can be written *)

Lemma printable_app (a b : pystr) :
  printable_ascii a -> printable_ascii b -> printable_ascii (a ++ b).
Proof. unfold printable_ascii. intros. by apply Forall_app. Qed.

Lemma printable_join (sep : pystr) (l : list pystr) :
  printable_ascii sep -> Forall printable_ascii l -> printable_ascii (join sep l).
Proof.
  intros Hsep. induction 1 as [ | a l Ha Hl IH ]; simpl; [constructor | ].
  destruct l as [ | b l ]; [done | ].
  apply printable_app; [done | ]. by apply printable_app.
Qed.

Lemma hex_digit_printable (n : N) : n < 16 -> 32 <= hex_digit n <= 126.
Proof. intros Hn. unfold hex_digit. destruct (n <? 10) eqn:E; lia. Qed.

Lemma u_escape_printable (n : N) : printable_ascii (u_escape n).
Proof.
  unfold u_escape, hex4, printable_ascii. simpl.
  repeat (constructor;
          [first [lia | apply hex_digit_printable; by apply N.mod_upper_bound] | ]).
  constructor.
Qed.

Lemma escape_char_printable (c : N) : printable_ascii (escape_char true c).
Proof.
  unfold escape_char.
  destruct (c =? 34); [repeat (constructor; [lia | ]); constructor | ].
  destruct (c =? 92); [repeat (constructor; [lia | ]); constructor | ].
  destruct (c =? 10); [repeat (constructor; [lia | ]); constructor | ].
  destruct (c =? 13); [repeat (constructor; [lia | ]); constructor | ].
  destruct (c =? 9); [repeat (constructor; [lia | ]); constructor | ].
  destruct (c =? 12); [repeat (constructor; [lia | ]); constructor | ].
  destruct (c =? 8); [repeat (constructor; [lia | ]); constructor | ].
  destruct (c <? 32) eqn:Hlow; [apply u_escape_printable | ].
  cbn [andb]. destruct (126 <? c) eqn:Hhigh.
  - destruct (c <? 65536); [apply u_escape_printable | ].
    apply printable_app; apply u_escape_printable.
  - apply N.ltb_ge in Hlow, Hhigh. by repeat constructor.
Qed.

Lemma encode_str_printable (s : pystr) : printable_ascii (encode_str true s).
Proof.
  unfold encode_str. apply printable_app; [by repeat constructor | ].
  apply printable_app; [ | by repeat constructor].
  unfold printable_ascii. apply Forall_concat, Forall_fmap, Forall_forall.
  intros c _. apply escape_char_printable.
Qed.

Lemma uint_repr_printable (u : Decimal.uint) : printable_ascii (uint_repr u).
Proof. induction u; simpl; constructor; (lia || done). Qed.

Lemma int_repr_printable (z : Z) : printable_ascii (int_repr z).
Proof.
  unfold int_repr. destruct (Z.to_int z); [ | constructor; [lia | ]];
    apply uint_repr_printable.
Qed.

Lemma float_repr_printable (f : pyfloat) : printable_ascii (float_repr f).
Proof.
  destruct f as [ | [ | ] | syms ]; cbn [float_repr]; try printable_literal.
  apply Forall_fmap, Forall_forall. intros x _.
  destruct x as [d | | | | ]; simpl; try lia.
  pose proof (N.mod_upper_bound d 10 ltac:(lia)) as Hd.
  generalize dependent (d mod 10). intros m Hm. lia.
Qed.

Lemma dumps_true_printable (j : json) : printable_ascii (dumps true j).
Proof.
  induction j as [ | [ | ] | z | f | s | l IH | kv IH ] using json_ind';
    cbn [dumps]; try printable_literal.
  - apply int_repr_printable.
  - apply float_repr_printable.
  - apply encode_str_printable.
  - apply printable_app; [printable_literal | ].
    apply printable_app; [ | printable_literal].
    apply printable_join; [printable_literal | ].
    by apply Forall_fmap.
  - apply printable_app; [printable_literal | ].
    apply printable_app; [ | printable_literal].
    apply printable_join; [printable_literal | ].
    apply Forall_fmap. eapply Forall_impl; [exact IH | ].
    intros [k v] Hv. cbn [fst snd compose] in *.
    apply printable_app; [apply encode_str_printable | ].
    apply printable_app; [printable_literal | done].
Qed.

Lemma printable_encodable (s : pystr) : printable_ascii s -> encodable s = true.
Proof.
  unfold encodable. induction 1 as [ | c s Hc _ IH ]; simpl; [done | ].
  rewrite IH, andb_true_r. unfold is_surrogate.
  apply negb_true_iff, andb_false_iff. left. apply N.leb_gt. lia.
Qed.

(** The text of a manifest can always be written. *)
Lemma manifest_text_encodable (dirs : list pystr) :
  encodable (dumps true (JArr (map JStr dirs))) = true.
Proof. apply printable_encodable, dumps_true_printable. Qed.

(** ** One file, and the loop over the sources *)

Section runs.
Context `{JsonDecoder} `{PathLib}.

Lemma preprocess_file_eq (uri out : pystr) (st : state) :
  preprocess_file uri out st =
    match files st !! Path uri with
    | None => (inl (FileNotFoundError (Path uri)), st)
    | Some text =>
        match line_loop (splitlines text) [] 0 with
        | inl e => (inl e, st)
        | inr r =>
            let p := output_file_path_of uri out in
            let written := events st ++ [WriteOutputFile p r.1] in
            if encodable r.1 then
              if r.2 =? 0 then
                (inl (ValueError (no_entries_message uri)),
                 State (<[p := r.1]> (files st)) (output_dirs st) written)
              else
                (inr tt,
                 State (<[p := r.1]> (files st))
                   (output_dirs st ++ [derived_dir uri out]) written)
            else
              (inl (UnicodeEncodeError r.1),
               State (<[p := []]> (files st)) (output_dirs st)
                 (events st ++ [WriteOutputFile p []]))
        end
    end.
Proof.
  unfold preprocess_file, bind_run, read_text, lift, write_text, throw,
    output_dirs_append, derived_dir.
  destruct (files st !! Path uri) as [text | ]; [ | done].
  destruct (line_loop (splitlines text) [] 0) as [e | r]; [done | ].
  cbn [files output_dirs events]. destruct (encodable r.1); [ | done].
  cbn [files output_dirs events]. by destruct (r.2 =? 0).
Qed.

Lemma source_loop_cons (uri : pystr) (rest : list pystr) (out : pystr) (st : state) :
  source_loop (uri :: rest) out st =
    match preprocess_file uri out
            (State (files st) (output_dirs st) (events st ++ [LogProcessing uri])) with
    | (inl e, st') => (inl e, st')
    | (inr _, st') => source_loop rest out st'
    end.
Proof. done. Qed.

Lemma source_loop_app (pre post : list pystr) (out : pystr) (st : state) :
  source_loop (pre ++ post) out st =
    match source_loop pre out st with
    | (inl e, st') => (inl e, st')
    | (inr _, st') => source_loop post out st'
    end.
Proof.
  revert st. induction pre as [ | uri pre IH ]; intros st; [done | ].
  rewrite <- app_comm_cons, !source_loop_cons.
  destruct (preprocess_file uri out _) as [[e | []] st']; [done | apply IH].
Qed.

(** What [preprocess_file] adds to the events: nothing, or the one write
    of the output file. *)
Lemma preprocess_file_events (uri out : pystr) (st : state) :
  exists evs,
    events (preprocess_file uri out st).2 = events st ++ evs
    /\ Forall (fun ev => is_loop_event ev = true) evs
    /\ ((preprocess_file uri out st).1 = inr tt ->
        output_dirs (preprocess_file uri out st).2 =
          output_dirs st ++ [derived_dir uri out]).
Proof.
  rewrite preprocess_file_eq.
  destruct (files st !! Path uri) as [text | ];
    [ | exists []; by rewrite app_nil_r].
  destruct (line_loop (splitlines text) [] 0) as [e | r];
    [exists []; by rewrite app_nil_r | ].
  cbn zeta. destruct (encodable r.1);
    [exists [WriteOutputFile (output_file_path_of uri out) r.1]
    | exists [WriteOutputFile (output_file_path_of uri out) []]];
    [destruct (r.2 =? 0) | ]; cbn [fst snd events output_dirs];
    (split; [done | split; [by repeat constructor | done]]).
Qed.

(** The loop over the sources only logs and writes output files; when it
    ends without an exception it has appended one entry per source, in the
    order of the sources. *)
Lemma source_loop_spec (srcs : list pystr) (out : pystr) (st : state) :
  exists evs,
    events (source_loop srcs out st).2 = events st ++ evs
    /\ Forall (fun ev => is_loop_event ev = true) evs
    /\ ((source_loop srcs out st).1 = inr tt ->
        output_dirs (source_loop srcs out st).2 =
          output_dirs st ++ map (fun uri => derived_dir uri out) srcs).
Proof.
  revert st. induction srcs as [ | uri srcs IH ]; intros st.
  - exists []. simpl. by rewrite !app_nil_r.
  - rewrite source_loop_cons.
    set (st0 := State (files st) (output_dirs st) (events st ++ [LogProcessing uri])).
    destruct (preprocess_file_events uri out st0) as (evs1 & Hev1 & Hloop1 & Hdirs1).
    destruct (preprocess_file uri out st0) as [[e | []] st1] eqn:Hfile;
      cbn [fst snd] in *.
    + exists (LogProcessing uri :: evs1). rewrite Hev1. subst st0; simpl.
      rewrite <- app_assoc. split; [done | ]. split; [by constructor | done].
    + destruct (IH st1) as (evs2 & Hev2 & Hloop2 & Hdirs2).
      exists (LogProcessing uri :: evs1 ++ evs2). rewrite Hev2, Hev1.
      subst st0; simpl. split; [by rewrite <- !app_assoc | ].
      split; [constructor; [done | by apply Forall_app] | ].
      intros Hok. rewrite (Hdirs2 Hok), (Hdirs1 eq_refl). simpl.
      by rewrite <- app_assoc.
Qed.

(** The body of the [try] for a non-empty list of sources. *)
Lemma try_body_nonempty (srcs : list pystr) (out : pystr) (fs : gmap pystr pystr) :
  srcs ≠ [] ->
  try_body srcs out (State fs [] []) =
    match source_loop srcs out (State fs [] []) with
    | (inl e, st) => (inl e, st)
    | (inr _, st) =>
        (inr tt,
         State (<[out := manifest_text (output_dirs st)]> (files st)) (output_dirs st)
           (events st ++ [LogOutput (output_dirs st);
                          WriteManifest out (manifest_text (output_dirs st))]))
    end.
Proof.
  intros Hne. unfold try_body, bind_run.
  destruct srcs as [ | uri srcs ]; [done | ].
  unfold pure, output_dirs_assign. cbn [files events].
  destruct (source_loop (uri :: srcs) out (State fs [] [])) as [[e | []] st];
    [done | ].
  unfold output_dirs_read, emit, write_text. cbn [files output_dirs events].
  unfold manifest_text. rewrite manifest_text_encodable.
  by rewrite <- app_assoc.
Qed.

Lemma loop_event_not_manifest (evs : list event) :
  Forall (fun ev => is_loop_event ev = true) evs ->
  Forall (fun ev => is_manifest_write ev = false) evs.
Proof.
  intros Hall. eapply Forall_impl; [exact Hall | ]. by intros [ | | | | ].
Qed.
End runs.

(** ** Claims about the text of the output *)

Lemma dict_keys_promoted (d : dict) : dict_keys d `prefix_of` dict_keys (promoted d).
Proof.
  unfold promoted.
  destruct (dict_get d PROMPT_KEY) as [p | ] eqn:Hp; [done | ].
  destruct (dict_get d INPUT_TEXT_KEY) as [v | ]; [ | done].
  rewrite dict_set_absent by done. unfold dict_keys. rewrite map_app.
  by apply prefix_app_r.
Qed.

Lemma escape_char_literal (c : N) :
  (32 <= c) -> (c ≠ 34) -> (c ≠ 92) -> escape_char false c = [c].
Proof.
  intros Hc Hq Hb. unfold escape_char.
  apply N.eqb_neq in Hq as ->. apply N.eqb_neq in Hb as ->.
  assert ((c <? 32) = false) as -> by (apply N.ltb_ge; lia).
  repeat (destruct (c =? _) eqn:E; [apply N.eqb_eq in E; lia | clear E]).
  done.
Qed.

Section output_text.
Context `{JsonDecoder} `{PathLib}.

Lemma json_loads_ok (s : pystr) (j : json) :
  json_loads s = inr j <-> loads s = Some j.
Proof.
  unfold json_loads, ok, raise. destruct (loads s); split; congruence.
Qed.

(** The loop over the lines succeeds on lines whose non-blank ones have
    records, and appends the lines of these records in order. *)
Lemma line_loop_records (lines : list pystr) (groups : list (list json)) content n :
  Forall2 line_records (filter (fun line => strip line ≠ []) lines) groups ->
  line_loop lines content n =
    inr (content ++ jsonl (concat groups), n + N.of_nat (length (concat groups))).
Proof.
  revert groups content n.
  induction lines as [ | line lines IH ]; intros groups content n Hall.
  - apply Forall2_nil_inv_l in Hall as ->. unfold jsonl. simpl.
    by rewrite app_nil_r, N.add_0_r.
  - destruct (decide (strip line = [])) as [Hb | Hnb].
    + rewrite filter_cons_False in Hall by (by intros Hne).
      rewrite line_loop_blank by done. by apply IH.
    + rewrite filter_cons_True in Hall by done.
      apply Forall2_cons_inv_l in Hall
        as (group & groups' & (j & objs & Hj & Hobjs & Hnorm) & Hall & ->).
      rewrite line_loop_line by done.
      apply json_loads_ok in Hj. rewrite Hj. cbn [bind_exn].
      rewrite Hobjs. unfold ok. cbn [bind_exn].
      rewrite (data_obj_loop_ok _ _ _ _ Hnorm). unfold ok. cbn [bind_exn fst snd].
      rewrite (IH _ _ _ Hall). cbn [concat].
      rewrite jsonl_app, length_app, Nat2N.inj_add.
      by rewrite <- app_assoc, N.add_assoc.
Qed.

(** Conversely a successful pass has found records for every non-blank
    line. *)
Lemma line_loop_records_inv (lines : list pystr) content n content' n' :
  line_loop lines content n = inr (content', n') ->
  exists groups,
    Forall2 line_records (filter (fun line => strip line ≠ []) lines) groups
    /\ content' = content ++ jsonl (concat groups)
    /\ n' = n + N.of_nat (length (concat groups)).
Proof.
  revert content n.
  induction lines as [ | line lines IH ]; intros content n.
  - simpl. intros [= <- <-]. exists []. unfold jsonl. simpl.
    split; [constructor | ]. by rewrite app_nil_r, N.add_0_r.
  - destruct (decide (strip line = [])) as [Hb | Hnb].
    + rewrite line_loop_blank by done. intros Hloop.
      apply IH in Hloop as (groups & Hall & -> & ->).
      exists groups. by rewrite filter_cons_False by (by intros Hne).
    + rewrite line_loop_line by done. intros Hloop.
      apply bind_exn_ok in Hloop as (j & Hj & Hloop).
      apply bind_exn_ok in Hloop as (objs & Hobjs & Hloop).
      apply bind_exn_ok in Hloop as ([c1 n1] & Hinner & Hloop).
      apply data_obj_loop_inv in Hinner as (group & Hnorm & -> & ->).
      apply IH in Hloop as (groups & Hall & -> & ->).
      exists (group :: groups). rewrite filter_cons_True by done.
      split; [constructor; [ | done] | ].
      * exists j, objs. by apply json_loads_ok in Hj.
      * cbn [concat fst snd]. rewrite jsonl_app, length_app, Nat2N.inj_add.
        by rewrite <- app_assoc, N.add_assoc.
Qed.

(** C9.  The body the loop over the lines builds.  Take the records of the
    non-blank lines, line by line: each line decodes, and each element it
    gives normalizes to a record.  Then the loop succeeds, and it has
    appended to the body, in that order, the [json.dumps] text of each of
    these records followed by one line feed, and counted them; and when the
    loop succeeds, the body and the count are of this form.  Read back line
    by line, such a body is the texts of the records, none of which holds a
    line feed.  A mapping is written with its items in their own order,
    which normalization keeps (the promoted [prompt] goes last), and a
    character above U+007E is written as itself. *)
Theorem output_body_is_one_record_per_line
    (lines : list pystr) (content : pystr) (n : N) :
  (forall groups,
     Forall2 line_records (filter (fun line => strip line ≠ []) lines) groups ->
     line_loop lines content n =
       inr (content ++
            concat (map (fun r => dumps false r ++ [10]) (concat groups)),
            n + N.of_nat (length (concat groups))))
  /\ (forall content' n',
        line_loop lines content n = inr (content', n') ->
        exists groups,
          Forall2 line_records (filter (fun line => strip line ≠ []) lines) groups
          /\ content' =
               content ++
               concat (map (fun r => dumps false r ++ [10]) (concat groups))
          /\ n' = n + N.of_nat (length (concat groups)))
  /\ (forall records : list json,
        split_lf (concat (map (fun r => dumps false r ++ [10]) records)) =
          map (dumps false) records ++ [[]]
        /\ Forall (fun r => Forall (fun c => c ≠ 10) (dumps false r)) records)
  /\ (forall d : dict,
        dumps false (JObj d) =
          py "{" ++
          join (py ", ")
            (map (fun p => encode_str false p.1 ++ py ": " ++ dumps false p.2) d) ++
          py "}"
        /\ dict_keys d `prefix_of` dict_keys (promoted d))
  /\ (forall c, 127 <= c -> escape_char false c = [c]).
Proof.
  split; [ | split; [ | split; [ | split]]].
  - intros groups Hall. by apply line_loop_records.
  - intros content' n' Hloop. by apply line_loop_records_inv.
  - intros records. split; [apply split_lf_jsonl | ].
    apply Forall_forall. intros r _. apply dumps_no_lf.
  - intros d. split; [done | apply dict_keys_promoted].
  - intros c Hc. apply escape_char_literal; lia.
Qed.

Lemma line_loop_one_line (line : pystr) (rest : list pystr) content n
    (j : json) (objs records : list json) :
  strip line ≠ [] ->
  loads (strip line) = Some j ->
  data_objs j = ok objs ->
  Forall2 (fun o r => normalize o = ok r) objs records ->
  line_loop [line] content n =
    inr (content ++ jsonl records, n + N.of_nat (length records))
  /\ line_loop (line :: rest) content n =
       line_loop rest (content ++ jsonl records) (n + N.of_nat (length records)).
Proof.
  intros Hnb Hj Hobjs Hnorm. rewrite !line_loop_line by done.
  apply json_loads_ok in Hj. rewrite Hj. cbn [bind_exn].
  rewrite Hobjs. unfold ok. cbn [bind_exn].
  rewrite (data_obj_loop_ok _ _ _ _ Hnorm). unfold ok. by cbn [bind_exn fst snd line_loop].
Qed.

(** C5.  A non-blank line that decodes to a mapping.  If its [data] field
    holds a list, the records of the line are the elements of that list:
    each is normalized on its own, and the loop over that line alone
    answers the body with their lines appended in the order of the list and
    the count grown by the length of the list; with more lines after it,
    the loop goes on from that body and that count.  For a list of
    mappings every element normalizes, and a source made of that one line
    has these lines as its output file and gets its entry.  If the mapping
    has no [data] field, it is itself the one record of the line. *)
Theorem aggregation_list_is_expanded
    (line : pystr) (rest : list pystr) (content : pystr) (n : N) (d : dict) :
  strip line ≠ [] ->
  loads (strip line) = Some (JObj d) ->
  (forall l records,
     dict_get d DATA_KEY = Some (JArr l) ->
     Forall2 (fun o o' => normalize o = ok o') l records ->
     line_loop [line] content n =
       inr (content ++ concat (map (fun r => dumps false r ++ [10]) records),
            n + N.of_nat (length records))
     /\ line_loop (line :: rest) content n =
          line_loop rest
            (content ++ concat (map (fun r => dumps false r ++ [10]) records))
            (n + N.of_nat (length records)))
  /\ (forall ds,
        dict_get d DATA_KEY = Some (JArr (map JObj ds)) ->
        line_loop [line] content n =
          inr (content ++
               concat (map (fun r => dumps false (JObj (promoted r)) ++ [10]) ds),
               n + N.of_nat (length ds))
        /\ line_loop (line :: rest) content n =
             line_loop rest
               (content ++
                concat (map (fun r => dumps false (JObj (promoted r)) ++ [10]) ds))
               (n + N.of_nat (length ds)))
  /\ (forall ds uri out st text,
        dict_get d DATA_KEY = Some (JArr (map JObj ds)) ->
        ds ≠ [] ->
        files st !! Path uri = Some text ->
        splitlines text = [line] ->
        encodable
          (concat (map (fun r => dumps false (JObj (promoted r)) ++ [10]) ds)) = true ->
        preprocess_file uri out st =
          (inr tt,
           State
             (<[output_file_path_of uri out :=
                  concat (map (fun r => dumps false (JObj (promoted r)) ++ [10]) ds)]>
                (files st))
             (output_dirs st ++ [derived_dir uri out])
             (events st ++
              [WriteOutputFile (output_file_path_of uri out)
                 (concat (map (fun r => dumps false (JObj (promoted r)) ++ [10]) ds))])))
  /\ (dict_get d DATA_KEY = None ->
      normalize (JObj d) = ok (JObj (promoted d))
      /\ line_loop [line] content n =
           inr (content ++ dumps false (JObj (promoted d)) ++ [10], n + 1)
      /\ line_loop (line :: rest) content n =
           line_loop rest (content ++ dumps false (JObj (promoted d)) ++ [10]) (n + 1)).
Proof.
  intros Hnb Hd.
  assert (forall ds c k tail,
            dict_get d DATA_KEY = Some (JArr (map JObj ds)) ->
            line_loop [line] c k =
              inr (c ++ concat (map (fun r => dumps false (JObj (promoted r)) ++ [10]) ds),
                   k + N.of_nat (length ds))
            /\ line_loop (line :: tail) c k =
                 line_loop tail
                   (c ++ concat (map (fun r => dumps false (JObj (promoted r)) ++ [10]) ds))
                   (k + N.of_nat (length ds))) as Hmappings.
  { intros ds c k tail Hdata.
    assert (data_objs (JObj d) = ok (map JObj ds)) as Hobjs
      by (unfold data_objs; by rewrite Hdata).
    pose proof (line_loop_one_line line tail c k _ _ _ Hnb Hd Hobjs
                  (Forall2_normalize_dicts ds)) as Hone.
    unfold jsonl in Hone. by rewrite map_map, length_map in Hone. }
  split; [ | split; [ | split]].
  - intros l records Hdata Hnorm.
    assert (data_objs (JObj d) = ok l) as Hobjs
      by (unfold data_objs; by rewrite Hdata).
    exact (line_loop_one_line line rest content n _ _ _ Hnb Hd Hobjs Hnorm).
  - intros ds Hdata. by apply Hmappings.
  - intros ds uri out st text Hdata Hne Htext Hlines Henc.
    destruct (Hmappings ds [] 0 [] Hdata) as [Hone _].
    rewrite preprocess_file_eq, Htext, Hlines, Hone. cbn [fst snd app].
    rewrite Henc.
    destruct ds as [ | d0 ds ]; [done | ]. by cbn [length].
  - intros Hdata.
    assert (data_objs (JObj d) = ok [JObj d]) as Hobjs
      by (unfold data_objs; by rewrite Hdata).
    assert (Forall2 (fun o r => normalize o = ok r) [JObj d] [JObj (promoted d)])
      as Hnorm by (constructor; [apply normalize_dict | constructor]).
    pose proof (line_loop_one_line line rest content n _ _ _ Hnb Hd Hobjs Hnorm)
      as Hone.
    unfold jsonl in Hone. cbn [map concat length] in Hone.
    rewrite app_nil_r in Hone. split; [apply normalize_dict | done].
Qed.
End output_text.

(** ** Claims about one file and about the batch *)

Section batch.
Context `{JsonDecoder} `{PathLib}.

(** C2, as the code has it.  The output file of a source is written, at
    the path derived from it, exactly when the source is read and the loop
    over its lines ends without an exception, whatever the count of
    records.  If the body can be encoded, the file holds the body: a source
    with no record leaves an empty output file behind and then the
    validation error is raised, and only the entry in [output_dirs] needs a
    record.  If the body cannot be encoded (a record holds a lone
    surrogate), the write raises [UnicodeEncodeError]: the file is left
    empty and no entry is appended. *)
Theorem output_file_written_when_lines_processed
    (uri out : pystr) (st : state) :
  let res := preprocess_file uri out st in
  let p := output_file_path_of uri out in
  match files st !! Path uri with
  | None => res = (inl (FileNotFoundError (Path uri)), st)
  | Some text =>
      match line_loop (splitlines text) [] 0 with
      | inl e => res = (inl e, st)
      | inr (content, num_entries) =>
          if encodable content then
            events res.2 = events st ++ [WriteOutputFile p content]
            /\ files res.2 = <[p := content]> (files st)
            /\ if num_entries =? 0
               then content = []
                    /\ res.1 = inl (ValueError (no_entries_message uri))
                    /\ output_dirs res.2 = output_dirs st
               else res.1 = inr tt
                    /\ output_dirs res.2 = output_dirs st ++ [derived_dir uri out]
          else
            res = (inl (UnicodeEncodeError content),
                   State (<[p := []]> (files st)) (output_dirs st)
                     (events st ++ [WriteOutputFile p []]))
      end
  end.
Proof.
  cbn zeta. rewrite preprocess_file_eq.
  destruct (files st !! Path uri) as [text | ]; [ | done].
  destruct (line_loop (splitlines text) [] 0) as [e | [content n]] eqn:Hloop;
    [done | ].
  cbn [fst snd]. destruct (encodable content); [ | done].
  destruct (n =? 0) eqn:Hn; cbn [fst snd files events output_dirs].
  - apply N.eqb_eq in Hn as ->.
    apply line_loop_inv in Hloop as (records & -> & Hlen & _).
    destruct records; [done | simpl in Hlen; lia].
  - done.
Qed.

(** C1, as the code has it.  [json.JSONDecodeError] is a [ValueError]: when
    a non-blank line of a source fails to decode, the sources before it and
    the lines before it having raised nothing, the component re-raises that
    error to its caller.  Nothing is logged by [logging.exception] and the
    process does not exit with status 13. *)
Theorem decode_error_is_reraised
    (pre : list pystr) (uri : pystr) (post : list pystr) (out : pystr)
    (fs : gmap pystr pystr) (st1 : state) (text : pystr)
    (l1 : list pystr) (line : pystr) (l2 : list pystr) (r1 : pystr * N) :
  source_loop pre (Path out) (State fs [] []) = (inr tt, st1) ->
  files st1 !! Path uri = Some text ->
  splitlines text = l1 ++ line :: l2 ->
  line_loop l1 [] 0 = inr r1 ->
  strip line ≠ [] ->
  loads (strip line) = None ->
  evaluation_dataset_preprocessor (pre ++ uri :: post) out fs =
    (Raised (JSONDecodeError (strip line)),
     State (files st1) (output_dirs st1) (events st1 ++ [LogProcessing uri]))
  /\ is_ValueError (JSONDecodeError (strip line)) = true
  /\ Forall (fun ev => is_loop_event ev = true) (events st1 ++ [LogProcessing uri]).
Proof.
  intros Hpre Htext Hlines Hl1 Hnb Hdec.
  assert (line_loop (splitlines text) [] 0 = inl (JSONDecodeError (strip line)))
    as Hloop.
  { rewrite Hlines, line_loop_app, Hl1. cbn [bind_exn].
    rewrite line_loop_line by done. unfold json_loads. by rewrite Hdec. }
  split; [ | split; [done | ]].
  - unfold evaluation_dataset_preprocessor.
    rewrite try_body_nonempty by (by destruct pre).
    rewrite source_loop_app, Hpre, source_loop_cons, preprocess_file_eq.
    cbn [files output_dirs events]. by rewrite Htext, Hloop.
  - destruct (source_loop_spec pre (Path out) (State fs [] [])) as (evs & Hev & Hall & _).
    rewrite Hpre in Hev. cbn [snd events] in Hev. rewrite Hev. simpl.
    apply Forall_app. split; [done | by repeat constructor].
Qed.

(** C3.  A source that yields no record, the sources before it having
    raised nothing: either each of its lines is blank or an empty
    aggregation list (an empty file has no line at all), or more generally
    the loop over its lines ends without an exception on a count of zero.
    The component then raises the [ValueError] of line 78, whose message
    ends with the URI of that source, and this very exception leaves the
    component: there is no [logging.exception], no exit with status 13. *)
Theorem no_record_raises_validation_error
    (pre : list pystr) (uri : pystr) (post : list pystr) (out : pystr)
    (fs : gmap pystr pystr) (st1 : state) (text : pystr) :
  source_loop pre (Path out) (State fs [] []) = (inr tt, st1) ->
  files st1 !! Path uri = Some text ->
  (Forall yields_nothing (splitlines text)
   \/ exists content, line_loop (splitlines text) [] 0 = inr (content, 0)) ->
  let p := output_file_path_of uri (Path out) in
  let st2 :=
    State (<[p := []]> (files st1)) (output_dirs st1)
      (events st1 ++ [LogProcessing uri; WriteOutputFile p []]) in
  preprocess_file uri (Path out)
    (State (files st1) (output_dirs st1) (events st1 ++ [LogProcessing uri])) =
    (inl (ValueError (no_entries_message uri)), st2)
  /\ uri `suffix_of` no_entries_message uri
  /\ is_ValueError (ValueError (no_entries_message uri)) = true
  /\ evaluation_dataset_preprocessor (pre ++ uri :: post) out fs =
       (Raised (ValueError (no_entries_message uri)), st2).
Proof.
  intros Hpre Htext Hzero p st2.
  assert (line_loop (splitlines text) [] 0 = inr ([], 0)) as Hloop.
  { destruct Hzero as [Hnothing | [content Hloop]];
      [by apply line_loop_nothing | ].
    pose proof Hloop as Hinv.
    apply line_loop_inv in Hinv as (records & -> & Hlen & _).
    destruct records; [done | simpl in Hlen; lia]. }
  assert (preprocess_file uri (Path out)
            (State (files st1) (output_dirs st1) (events st1 ++ [LogProcessing uri])) =
          (inl (ValueError (no_entries_message uri)), st2)) as Hfile.
  { rewrite preprocess_file_eq. cbn [files output_dirs events].
    rewrite Htext, Hloop. cbn [fst snd]. simpl N.eqb. cbn iota.
    subst st2. by rewrite <- app_assoc. }
  split; [done | ]. split; [ | split; [done | ]].
  - unfold no_entries_message. rewrite !app_assoc. by apply suffix_app_r.
  - unfold evaluation_dataset_preprocessor.
    rewrite try_body_nonempty by (by destruct pre).
    by rewrite source_loop_app, Hpre, source_loop_cons, Hfile.
Qed.
End batch.

Section manifest.
Context `{JsonDecoder} `{PathLib}.

(** C6.  For a non-empty list of sources.  If the loop over the sources
    stops on an exception, the component ends on it (re-raised, or status
    13) and no write of the manifest is among its events: the store holds
    what that loop left.  If every source is processed, the component
    returns, and the write of the manifest, the JSON array of
    [output_dirs], is its last event and its only write of the manifest. *)
Theorem manifest_written_only_after_all_sources
    (srcs : list pystr) (out : pystr) (fs : gmap pystr pystr) :
  srcs ≠ [] ->
  let res := evaluation_dataset_preprocessor srcs out fs in
  match source_loop srcs (Path out) (State fs [] []) with
  | (inl e, st) =>
      res.1 = (if is_ValueError e then Raised e else Exited 13)
      /\ files res.2 = files st
      /\ Forall (fun ev => is_manifest_write ev = false) (events res.2)
  | (inr _, st) =>
      res.1 = Returned
      /\ files res.2 =
           <[Path out := dumps true (JArr (map JStr (output_dirs st)))]> (files st)
      /\ exists evs,
           events res.2 =
             evs ++ [WriteManifest (Path out)
                       (dumps true (JArr (map JStr (output_dirs st))))]
           /\ Forall (fun ev => is_manifest_write ev = false) evs
  end.
Proof.
  intros Hne. cbn zeta. unfold evaluation_dataset_preprocessor.
  rewrite try_body_nonempty by done.
  destruct (source_loop_spec srcs (Path out) (State fs [] [])) as (evs & Hev & Hall & _).
  apply loop_event_not_manifest in Hall.
  destruct (source_loop srcs (Path out) (State fs [] [])) as [[e | []] st];
    cbn [fst snd events] in *.
  - destruct (is_ValueError e); cbn [fst snd emit files events].
    + by rewrite Hev.
    + split; [done | ]. split; [done | ]. rewrite Hev. simpl.
      apply Forall_app. split; [done | by repeat constructor].
  - split; [done | ]. split; [done | ].
    exists (events st ++ [LogOutput (output_dirs st)]).
    split; [by rewrite <- app_assoc | ].
    rewrite Hev. simpl. apply Forall_app. split; [done | by repeat constructor].
Qed.

Lemma run_without_sources (out : pystr) (fs : gmap pystr pystr) :
  evaluation_dataset_preprocessor [] out fs =
    (Returned,
     State (<[Path out := py "[]"]> fs) []
       [WriteManifest (Path out) (py "[]"); LogOutput [];
        WriteManifest (Path out) (py "[]")]).
Proof.
  unfold evaluation_dataset_preprocessor, try_body. cbn [source_loop].
  unfold bind_run, write_text, output_dirs_assign, output_dirs_read, emit, pure.
  change (manifest_text []) with (py "[]").
  change (encodable (py "[]")) with true.
  cbn [files output_dirs events app].
  change (manifest_text []) with (py "[]").
  change (encodable (py "[]")) with true.
  cbn [files output_dirs events app].
  by rewrite insert_insert_eq.
Qed.

(** C7.  With no source the component returns; the store is the one it
    was given with the text of the empty JSON array at the path of the
    manifest, and the events are the two writes of the manifest (lines 90
    and 98) around the log line: no output file is written. *)
Theorem empty_sources_write_empty_manifest (out : pystr) (fs : gmap pystr pystr) :
  evaluation_dataset_preprocessor [] out fs =
    (Returned,
     State (<[Path out := py "[]"]> fs) []
       [WriteManifest (Path out) (py "[]"); LogOutput [];
        WriteManifest (Path out) (py "[]")])
  /\ files (evaluation_dataset_preprocessor [] out fs).2 !! Path out =
       Some (dumps true (JArr []))
  /\ Forall (fun ev => is_loop_event ev = false)
       (events (evaluation_dataset_preprocessor [] out fs).2).
Proof.
  rewrite run_without_sources. cbn [snd files events].
  split; [done | ]. split; [by rewrite lookup_insert_eq | by repeat constructor].
Qed.

(** C8.  When the component returns, [output_dirs] holds one entry per
    source, the entry derived from that source, in the order of the
    sources; so it is no longer than the list of sources, and it is the
    list the manifest is written from. *)
Theorem manifest_follows_source_order
    (srcs : list pystr) (out : pystr) (fs : gmap pystr pystr) :
  let res := evaluation_dataset_preprocessor srcs out fs in
  res.1 = Returned ->
  output_dirs res.2 = map (fun uri => derived_dir uri (Path out)) srcs
  /\ (length (output_dirs res.2) <= length srcs)%nat
  /\ files res.2 !! Path out = Some (dumps true (JArr (map JStr (output_dirs res.2)))).
Proof.
  cbn zeta. destruct srcs as [ | uri srcs ].
  - rewrite run_without_sources. cbn [fst snd files output_dirs].
    intros _. split; [done | ]. split; [done | ]. by rewrite lookup_insert_eq.
  - unfold evaluation_dataset_preprocessor.
    rewrite try_body_nonempty by done.
    destruct (source_loop_spec (uri :: srcs) (Path out) (State fs [] []))
      as (evs & _ & _ & Hdirs).
    destruct (source_loop (uri :: srcs) (Path out) (State fs [] [])) as [[e | []] st];
      cbn [fst snd files output_dirs] in *.
    + by destruct (is_ValueError e).
    + intros _. rewrite (Hdirs eq_refl). cbn [app].
      split; [done | ]. split; [by rewrite length_map | ].
      by rewrite lookup_insert_eq.
Qed.
End manifest.



(** * The claims on the inputs of [Demo] *)

Example legacy_field_is_promoted :
  normalize Demo.hello =
    ok (JObj [(py "input_text", JStr (py "hello")); (py "prompt", JStr (py "hello"))])
  /\ normalize Demo.hi_hello = ok Demo.hi_hello.
Proof. by vm_compute. Qed.

Example records_file_is_transcoded :
  (Demo.run [Demo.records_uri]).1 = Returned
  /\ files (Demo.run [Demo.records_uri]).2 !! py "/gcs/b/out/records.jsonl" =
       Some Demo.records_output
  /\ files (Demo.run [Demo.records_uri]).2 !! Demo.manifest_path =
       Some (jtext "['gs://b/out/records.jsonl']").
Proof. by vm_compute. Qed.

(** The lines of an output file are the texts between line feeds.  A record
    may still hold a character that [str.splitlines] takes for a boundary,
    such as U+2028: without [ensure_ascii] it is written as itself. *)
Example line_separator_is_written_literally :
  dumps false (JStr [97; 8232; 98]) = [34; 97; 8232; 98; 34]
  /\ split_lf (dumps false (JStr [97; 8232; 98]) ++ [10]) = [[34; 97; 8232; 98; 34]; []]
  /\ splitlines (dumps false (JStr [97; 8232; 98]) ++ [10]) = [[34; 97]; [98; 34]].
Proof. by vm_compute. Qed.

(** C1 fails on the code.  The only line of the source is [{], which does
    not decode; the component re-raises the [JSONDecodeError] instead of
    exiting with status 13, and [logging.exception] is not called. *)
Lemma decode_error_does_not_exit_13 :
  @loads Demo.decoder (strip (py "{")) = None
  /\ strip (py "{") ≠ []
  /\ (Demo.run [Demo.broken_uri]).1 = Raised (JSONDecodeError (py "{"))
  /\ (Demo.run [Demo.broken_uri]).1 ≠ Exited 13
  /\ events (Demo.run [Demo.broken_uri]).2 = [LogProcessing Demo.broken_uri].
Proof. vm_compute. repeat split; try reflexivity; discriminate. Qed.

Lemma decode_error_is_reraised_witness :
  (Demo.run [Demo.legacy_uri; Demo.broken_uri; Demo.records_uri]).1 =
    Raised (JSONDecodeError (py "{")).
Proof.
  refine (f_equal fst (proj1
    (@decode_error_is_reraised Demo.decoder plain_paths
       [Demo.legacy_uri] Demo.broken_uri [Demo.records_uri] Demo.manifest_path
       Demo.store
       (@source_loop Demo.decoder plain_paths [Demo.legacy_uri]
          Demo.manifest_path (State Demo.store [] [])).2
       (py "{" ++ [10]) [] (py "{") [] ([], 0) _ _ _ _ _ _))).
  - vm_compute. reflexivity.
  - vm_compute. reflexivity.
  - vm_compute. reflexivity.
  - vm_compute. reflexivity.
  - vm_compute. discriminate.
  - vm_compute. reflexivity.
Defined.

(** C2 fails on the code.  The source is an empty file: its lines yield no
    record, and yet the output file is written, empty, before the
    [ValueError] is raised. *)
Lemma empty_file_still_gets_an_output_file :
  Demo.store !! Demo.empty_uri = Some []
  /\ @line_loop Demo.decoder (splitlines []) [] 0 = inr ([], 0)
  /\ events (Demo.run [Demo.empty_uri]).2 =
       [LogProcessing Demo.empty_uri; WriteOutputFile Demo.empty_output_path []]
  /\ files (Demo.run [Demo.empty_uri]).2 !! Demo.empty_output_path = Some []
  /\ ~ ((exists content,
           In (WriteOutputFile Demo.empty_output_path content)
              (events (Demo.run [Demo.empty_uri]).2))
        <-> (exists content n,
               @line_loop Demo.decoder (splitlines []) [] 0 = inr (content, n)
               /\ 0 < n)).
Proof.
  split; [by vm_compute | ]. split; [by vm_compute | ].
  split; [by vm_compute | ]. split; [by vm_compute | ].
  intros [Hwritten _].
  destruct Hwritten as (content & n & Hloop & Hn).
  - exists []. vm_compute. auto.
  - vm_compute in Hloop. injection Hloop as _ <-. lia.
Qed.

Lemma no_record_raises_validation_error_witness :
  (Demo.run [Demo.legacy_uri; Demo.blank_uri; Demo.records_uri]).1 =
    Raised (ValueError (@no_entries_message Demo.blank_uri))
  /\ Demo.blank_uri `suffix_of` no_entries_message Demo.blank_uri.
Proof.
  assert (Forall (@yields_nothing Demo.decoder)
            [py "  "; []; jtext "{'data': []}"]) as Hnothing.
  { constructor; [ | constructor; [ | constructor; [ | constructor]]].
    - left. vm_compute. reflexivity.
    - left. vm_compute. reflexivity.
    - right. exists [(py "data", JArr [])]. vm_compute. split; reflexivity. }
  assert (Hw := @no_record_raises_validation_error Demo.decoder plain_paths
    [Demo.legacy_uri] Demo.blank_uri [Demo.records_uri] Demo.manifest_path
    Demo.store
    (@source_loop Demo.decoder plain_paths [Demo.legacy_uri]
       Demo.manifest_path (State Demo.store [] [])).2
    (py "  " ++ [10; 10] ++ jtext "{'data': []}" ++ [10])
    ltac:(vm_compute; reflexivity) ltac:(vm_compute; reflexivity)
    (or_introl Hnothing)).
  destruct Hw as (_ & Hsuffix & _ & Hrun).
  split; [exact (f_equal fst Hrun) | exact Hsuffix].
Defined.

Lemma aggregation_list_is_expanded_witness :
  @line_loop Demo.decoder
    [jtext "{'data': [{'input_text': 'a'}, {'prompt': 'b'}]}"] [] 0 =
    inr (jtext "{'input_text': 'a', 'prompt': 'a'}" ++ [10] ++
         jtext "{'prompt': 'b'}" ++ [10], 2).
Proof.
  refine (eq_trans
    (proj1 (proj1 (proj2
       (@aggregation_list_is_expanded Demo.decoder plain_paths
          (jtext "{'data': [{'input_text': 'a'}, {'prompt': 'b'}]}") [] [] 0
          [(py "data",
            JArr [JObj [(py "input_text", JStr (py "a"))];
                  JObj [(py "prompt", JStr (py "b"))]])] _ _))
       [[(py "input_text", JStr (py "a"))]; [(py "prompt", JStr (py "b"))]] _)) _).
  - vm_compute. discriminate.
  - vm_compute. reflexivity.
  - vm_compute. reflexivity.
  - vm_compute. reflexivity.
Defined.

Lemma manifest_written_only_after_all_sources_witness :
  Forall (fun ev => is_manifest_write ev = false)
    (events (Demo.run [Demo.legacy_uri; Demo.blank_uri]).2)
  /\ (Demo.run [Demo.records_uri; Demo.legacy_uri]).1 = Returned.
Proof.
  assert (Habort := @manifest_written_only_after_all_sources Demo.decoder plain_paths
    [Demo.legacy_uri; Demo.blank_uri] Demo.manifest_path Demo.store
    ltac:(discriminate)).
  assert (Hdone := @manifest_written_only_after_all_sources Demo.decoder plain_paths
    [Demo.records_uri; Demo.legacy_uri] Demo.manifest_path Demo.store
    ltac:(discriminate)).
  cbn zeta in Habort, Hdone.
  assert ((@source_loop Demo.decoder plain_paths [Demo.legacy_uri; Demo.blank_uri]
             (@Path plain_paths Demo.manifest_path) (State Demo.store [] [])).1 =
          inl (ValueError (@no_entries_message Demo.blank_uri))) as Eabort
    by (vm_compute; reflexivity).
  assert ((@source_loop Demo.decoder plain_paths [Demo.records_uri; Demo.legacy_uri]
             (@Path plain_paths Demo.manifest_path) (State Demo.store [] [])).1 =
          inr tt) as Edone
    by (vm_compute; reflexivity).
  destruct (@source_loop Demo.decoder plain_paths [Demo.legacy_uri; Demo.blank_uri]
              (@Path plain_paths Demo.manifest_path) (State Demo.store [] []))
    as [[e | []] st]; [ | discriminate Eabort].
  destruct (@source_loop Demo.decoder plain_paths [Demo.records_uri; Demo.legacy_uri]
              (@Path plain_paths Demo.manifest_path) (State Demo.store [] []))
    as [[e' | []] st']; [discriminate Edone | ].
  split.
  - exact (proj2 (proj2 Habort)).
  - exact (proj1 Hdone).
Defined.

Lemma manifest_follows_source_order_witness :
  output_dirs (Demo.run [Demo.records_uri; Demo.legacy_uri]).2 =
    [py "gs://b/out/records.jsonl"; py "gs://b/out/legacy.jsonl"].
Proof.
  refine (eq_trans
    (proj1 (@manifest_follows_source_order Demo.decoder plain_paths
       [Demo.records_uri; Demo.legacy_uri] Demo.manifest_path Demo.store _)) _).
  - vm_compute. reflexivity.
  - vm_compute. reflexivity.
Defined.

Lemma output_body_is_one_record_per_line_witness :
  @line_loop Demo.decoder (splitlines Demo.records_text) [] 0 =
    inr (Demo.records_output, 3).
Proof.
  assert (Forall2 (@line_records Demo.decoder)
            [jtext "{'prompt': 'hi', 'input_text': 'hello'}";
             jtext "{'data': [{'input_text': 'a'}, {'prompt': 'b'}]}"]
            [[Demo.hi_hello];
             [JObj [(py "input_text", JStr (py "a")); (py "prompt", JStr (py "a"))];
              JObj [(py "prompt", JStr (py "b"))]]]) as Hrecords.
  { constructor; [ | constructor; [ | constructor]].
    - exists Demo.hi_hello, [Demo.hi_hello].
      split; [vm_compute; reflexivity | ]. split; [vm_compute; reflexivity | ].
      constructor; [vm_compute; reflexivity | constructor].
    - exists Demo.a_b,
        [JObj [(py "input_text", JStr (py "a"))]; JObj [(py "prompt", JStr (py "b"))]].
      split; [vm_compute; reflexivity | ]. split; [vm_compute; reflexivity | ].
      constructor; [vm_compute; reflexivity | ].
      constructor; [vm_compute; reflexivity | constructor]. }
  refine (eq_trans
    (proj1 (@output_body_is_one_record_per_line Demo.decoder
              (splitlines Demo.records_text) [] 0)
       [[Demo.hi_hello];
        [JObj [(py "input_text", JStr (py "a")); (py "prompt", JStr (py "a"))];
         JObj [(py "prompt", JStr (py "b"))]]] _) _).
  - assert (filter (fun line => strip line ≠ []) (splitlines Demo.records_text) =
            [jtext "{'prompt': 'hi', 'input_text': 'hello'}";
             jtext "{'data': [{'input_text': 'a'}, {'prompt': 'b'}]}"]) as ->
      by (vm_compute; reflexivity).
    exact Hrecords.
  - vm_compute. reflexivity.
Defined.

(** * Further properties of the component *)

(** ** Exceptions that are not [ValueError]s *)

Section failures.
Context `{JsonDecoder} `{PathLib}.

(** The run stops at the first source whose processing raises: a
    [ValueError] is re-raised, any other exception is logged and turned into
    the exit with status 13. *)
Lemma run_stops_at_failing_source
    (pre : list pystr) (uri : pystr) (post : list pystr) (out : pystr)
    (fs : gmap pystr pystr) (st1 st2 : state) (e : exn) :
  source_loop pre (Path out) (State fs [] []) = (inr tt, st1) ->
  preprocess_file uri (Path out)
    (State (files st1) (output_dirs st1) (events st1 ++ [LogProcessing uri])) =
    (inl e, st2) ->
  evaluation_dataset_preprocessor (pre ++ uri :: post) out fs =
    if is_ValueError e then (Raised e, st2)
    else (Exited 13,
          State (files st2) (output_dirs st2) (events st2 ++ [LogException e])).
Proof.
  intros Hpre Hfile. unfold evaluation_dataset_preprocessor.
  rewrite try_body_nonempty by (by destruct pre).
  rewrite source_loop_app, Hpre, source_loop_cons, Hfile.
  by destruct (is_ValueError e).
Qed.

(** X1.  A source that is not in the store, the sources before it having
    raised nothing: the read raises, nothing is written for that source, the
    exception is logged and the component exits with status 13. *)
Theorem missing_source_exits_13
    (pre : list pystr) (uri : pystr) (post : list pystr) (out : pystr)
    (fs : gmap pystr pystr) (st1 : state) :
  source_loop pre (Path out) (State fs [] []) = (inr tt, st1) ->
  files st1 !! Path uri = None ->
  evaluation_dataset_preprocessor (pre ++ uri :: post) out fs =
    (Exited 13,
     State (files st1) (output_dirs st1)
       (events st1 ++
        [LogProcessing uri; LogException (FileNotFoundError (Path uri))])).
Proof.
  intros Hpre Hnone.
  rewrite (run_stops_at_failing_source pre uri post out fs st1
             (State (files st1) (output_dirs st1) (events st1 ++ [LogProcessing uri]))
             (FileNotFoundError (Path uri)) Hpre).
  - cbn [is_ValueError files output_dirs events]. by rewrite <- app_assoc.
  - rewrite preprocess_file_eq. cbn [files]. by rewrite Hnone.
Qed.

(** X2.  A non-blank line that decodes to a JSON value that is not a
    mapping (an array, a string, a number, a boolean, [null]): the value has
    no [get], the loop over the lines raises [AttributeError] whatever comes
    after that line, no output file is written for the source and the
    component exits with status 13. *)
Theorem non_mapping_line_exits_13
    (pre : list pystr) (uri : pystr) (post : list pystr) (out : pystr)
    (fs : gmap pystr pystr) (st1 : state) (text : pystr)
    (l1 : list pystr) (line : pystr) (l2 : list pystr) (r1 : pystr * N)
    (v : json) :
  source_loop pre (Path out) (State fs [] []) = (inr tt, st1) ->
  files st1 !! Path uri = Some text ->
  splitlines text = l1 ++ line :: l2 ->
  line_loop l1 [] 0 = inr r1 ->
  strip line ≠ [] ->
  loads (strip line) = Some v ->
  (forall d, v ≠ JObj d) ->
  line_loop (splitlines text) [] 0 = inl AttributeError
  /\ evaluation_dataset_preprocessor (pre ++ uri :: post) out fs =
       (Exited 13,
        State (files st1) (output_dirs st1)
          (events st1 ++ [LogProcessing uri; LogException AttributeError])).
Proof.
  intros Hpre Htext Hlines Hl1 Hnb Hdec Hv.
  assert (line_loop (splitlines text) [] 0 = inl AttributeError) as Hloop.
  { rewrite Hlines, line_loop_app, Hl1. cbn [bind_exn].
    rewrite line_loop_line by done. unfold json_loads. rewrite Hdec.
    destruct v; try done. by destruct (Hv items). }
  split; [done | ].
  rewrite (run_stops_at_failing_source pre uri post out fs st1
             (State (files st1) (output_dirs st1) (events st1 ++ [LogProcessing uri]))
             AttributeError Hpre).
  - cbn [is_ValueError files output_dirs events]. by rewrite <- app_assoc.
  - rewrite preprocess_file_eq. cbn [files]. by rewrite Htext, Hloop.
Qed.
End failures.

(** ** Records that are not mappings *)

Lemma normalize_raises_TypeError (j : json) (e : exn) :
  normalize j = inl e -> e = TypeError.
Proof.
  unfold normalize, contains, getitem, setitem, bind_exn, ok, raise.
  destruct j as [ | b | z | f | s | l | d ]; try by intros [= <-].
  - destruct (substrb PROMPT_KEY s); [discriminate | ].
    destruct (substrb INPUT_TEXT_KEY s); [by intros [= <-] | discriminate].
  - destruct (existsb _ l); [discriminate | ].
    destruct (existsb _ l); [by intros [= <-] | discriminate].
  - destruct (dict_get d PROMPT_KEY); [discriminate | ].
    by destruct (dict_get d INPUT_TEXT_KEY).
Qed.

(** X3.  What lines 72-73 do to a record of any type.  They never raise on
    a mapping, always raise on a number, a boolean or [null], raise nothing
    but [TypeError], and a string or a list they accept is left as it is. *)
Theorem normalize_by_type (j : json) :
  (forall d, j = JObj d -> exists d', normalize j = ok (JObj d'))
  /\ (is_scalar j = true -> normalize j = inl TypeError)
  /\ (forall e, normalize j = inl e -> e = TypeError)
  /\ (forall j', (forall d, j ≠ JObj d) -> normalize j = ok j' -> j' = j).
Proof.
  split; [ | split; [ | split]].
  - intros d ->. exists (promoted d). apply normalize_dict.
  - by destruct j.
  - apply normalize_raises_TypeError.
  - intros j'. apply normalize_not_dict.
Qed.

Lemma substrb_longer (sub s : pystr) :
  (length s < length sub)%nat -> substrb sub s = false.
Proof.
  induction s as [ | c s IH ]; intros Hlen.
  - destruct sub; [simpl in Hlen; lia | done].
  - simpl in *. rewrite IH by lia. rewrite orb_false_r.
    destruct sub as [ | a sub ]; [simpl in Hlen; lia | ].
    simpl. destruct (a =? c); [ | done]. simpl.
    clear IH. revert sub Hlen. induction s as [ | c' s IH ]; intros sub Hlen.
    + destruct sub; [simpl in Hlen; lia | done].
    + destruct sub as [ | a' sub ]; [simpl in Hlen; lia | ].
      simpl. rewrite IH by (simpl in *; lia). apply andb_false_r.
Qed.

Lemma normalize_char (c : N) : normalize (JStr [c]) = ok (JStr [c]).
Proof.
  unfold normalize, contains, bind_exn, ok.
  by rewrite !substrb_longer by (vm_compute; lia).
Qed.

Section odd_records.
Context `{JsonDecoder} `{PathLib}.

(** X4.  A non-blank line that decodes to a mapping whose [data] field
    holds a string: the loop of line 71 runs over the characters of the
    string, so each character becomes a record of its own, a JSON string of
    one character, written on a line of its own and counted.  The loop over
    that line alone answers the body with these lines appended and the
    count grown by the length of the string; with more lines after it, the
    loop goes on from that body and that count. *)
Theorem data_string_gives_one_record_per_character
    (line : pystr) (rest : list pystr) (content : pystr) (n : N)
    (d : dict) (s : pystr) :
  strip line ≠ [] ->
  loads (strip line) = Some (JObj d) ->
  dict_get d DATA_KEY = Some (JStr s) ->
  line_loop [line] content n =
    inr (content ++ concat (map (fun c => dumps false (JStr [c]) ++ [10]) s),
         n + N.of_nat (length s))
  /\ line_loop (line :: rest) content n =
       line_loop rest
         (content ++ concat (map (fun c => dumps false (JStr [c]) ++ [10]) s))
         (n + N.of_nat (length s)).
Proof.
  intros Hnb Hd Hdata.
  assert (data_objs (JObj d) = ok (map (fun c => JStr [c]) s)) as Hobjs
    by (unfold data_objs; by rewrite Hdata).
  assert (Forall2 (fun o o' => normalize o = ok o')
            (map (fun c => JStr [c]) s) (map (fun c => JStr [c]) s)) as Hnorm.
  { clear. induction s as [ | c s IH ]; simpl;
      [constructor | constructor; [apply normalize_char | done]]. }
  pose proof (line_loop_one_line line rest content n _ _ _ Hnb Hd Hobjs Hnorm)
    as Hone.
  unfold jsonl in Hone. by rewrite map_map, length_map in Hone.
Qed.

Lemma data_obj_loop_scalar (objs : list json) (content : pystr) (n : N) :
  Exists (fun o => is_scalar o = true) objs ->
  data_obj_loop objs content n = inl TypeError.
Proof.
  intros Hex. revert content n.
  induction Hex as [ o objs Ho | o objs _ IH ]; intros content n; simpl.
  - by destruct o.
  - destruct (normalize o) as [e | o'] eqn:Ho; simpl.
    + by rewrite (normalize_raises_TypeError _ _ Ho).
    + apply IH.
Qed.

(** X5.  A non-blank line whose [data] list holds a number, a boolean or
    [null] anywhere: the line raises [TypeError], also when the elements
    before it are good records, and then [preprocess_file] raises it
    without having written anything: the records gathered so far are
    dropped with the rest. *)
Theorem scalar_in_data_list_drops_the_file
    (uri out : pystr) (st : state) (text : pystr)
    (l1 : list pystr) (line : pystr) (l2 : list pystr) (r1 : pystr * N)
    (d : dict) (l : list json) :
  files st !! Path uri = Some text ->
  splitlines text = l1 ++ line :: l2 ->
  line_loop l1 [] 0 = inr r1 ->
  strip line ≠ [] ->
  loads (strip line) = Some (JObj d) ->
  dict_get d DATA_KEY = Some (JArr l) ->
  Exists (fun o => is_scalar o = true) l ->
  preprocess_file uri out st = (inl TypeError, st)
  /\ is_ValueError TypeError = false.
Proof.
  intros Htext Hlines Hl1 Hnb Hd Hdata Hex. split; [ | done].
  rewrite preprocess_file_eq, Htext, Hlines, line_loop_app, Hl1. cbn [bind_exn].
  rewrite line_loop_line by done. unfold json_loads. rewrite Hd. simpl.
  rewrite Hdata. simpl. by rewrite data_obj_loop_scalar.
Qed.
End odd_records.

(** ** Blank lines and the whitespace around a line *)

Lemma lstrip_clean (s : pystr) :
  match lstrip s with [] => True | c :: _ => is_space c = false end.
Proof.
  induction s as [ | c s IH ]; simpl; [done | ].
  destruct (is_space c) eqn:Hc; done.
Qed.

Lemma lstrip_id (s : pystr) :
  match s with [] => True | c :: _ => is_space c = false end -> lstrip s = s.
Proof. destruct s as [ | c s ]; simpl; [done | ]. by intros ->. Qed.

Lemma lstrip_suffix (s : pystr) : exists p, s = p ++ lstrip s.
Proof.
  induction s as [ | c s [p Hp] ]; simpl; [by exists [] | ].
  destruct (is_space c); [ | by exists []].
  exists (c :: p). simpl. by rewrite <- Hp.
Qed.

Lemma strip_clean (s : pystr) :
  match strip s with [] => True | c :: _ => is_space c = false end.
Proof.
  unfold strip.
  destruct (lstrip_suffix (rev (lstrip s))) as [p Hp].
  pose proof (lstrip_clean s) as Hclean.
  assert (lstrip s = rev (lstrip (rev (lstrip s))) ++ rev p) as Ht.
  { rewrite <- rev_app_distr, <- Hp. by rewrite rev_involutive. }
  destruct (rev (lstrip (rev (lstrip s)))) as [ | c u ]; [done | ].
  rewrite Ht in Hclean. done.
Qed.

(** [strip], as the component uses it on each line, is idempotent. *)
Lemma strip_idempotent (s : pystr) : strip (strip s) = strip s.
Proof.
  unfold strip at 1. rewrite (lstrip_id (strip s)) by apply strip_clean.
  unfold strip. rewrite rev_involutive.
  by rewrite (lstrip_id (lstrip _)) by apply lstrip_clean.
Qed.

Section blank_lines.
Context `{JsonDecoder}.

(** X6.  Blank lines do not count and the whitespace around a line does
    not either: the loop over the lines gives the same result, exception or
    body and count, on the lines as they are, on the lines without the
    blank ones, and on the stripped lines. *)
Theorem line_loop_ignores_whitespace (lines : list pystr) (content : pystr) (n : N) :
  line_loop (filter (fun line => strip line ≠ []) lines) content n =
    line_loop lines content n
  /\ line_loop (map strip lines) content n = line_loop lines content n.
Proof.
  split; revert content n; induction lines as [ | line lines IH ];
    intros content n; try done.
  - destruct (decide (strip line = [])) as [Hb | Hnb].
    + rewrite filter_cons_False by (by intros Hne). rewrite line_loop_blank by done.
      apply IH.
    + rewrite filter_cons_True by done. rewrite !line_loop_line by done. simpl.
      destruct (json_loads (strip line)) as [e | j]; simpl; [done | ].
      destruct (data_objs j) as [e | objs]; simpl; [done | ].
      destruct (data_obj_loop objs content n) as [e | r]; simpl; [done | ].
      apply IH.
  - rewrite map_cons. destruct (decide (strip line = [])) as [Hb | Hnb].
    + rewrite !line_loop_blank by (by rewrite ?strip_idempotent). apply IH.
    + rewrite !line_loop_line by (by rewrite ?strip_idempotent).
      rewrite strip_idempotent. simpl.
      destruct (json_loads (strip line)) as [e | j]; simpl; [done | ].
      destruct (data_objs j) as [e | objs]; simpl; [done | ].
      destruct (data_obj_loop objs content n) as [e | r]; simpl; [done | ].
      apply IH.
Qed.
End blank_lines.

(** ** The order of the sources *)

Section source_order.
Context `{JsonDecoder} `{PathLib}.

Lemma source_loop_fails_app (l1 l2 : list pystr) (out : pystr) (st st' : state) (e : exn) :
  source_loop l1 out st = (inl e, st') ->
  source_loop (l1 ++ l2) out st = (inl e, st').
Proof. intros Hl1. by rewrite source_loop_app, Hl1. Qed.

(** X7.  The sources after the first one that raises are never looked at:
    when the component does not return on a non-empty list of sources, it
    ends in the same way, in the same state, whatever is appended to that
    list. *)
Theorem sources_after_a_failure_do_not_matter
    (l1 l2 : list pystr) (out : pystr) (fs : gmap pystr pystr) :
  l1 ≠ [] ->
  (evaluation_dataset_preprocessor l1 out fs).1 ≠ Returned ->
  evaluation_dataset_preprocessor (l1 ++ l2) out fs =
    evaluation_dataset_preprocessor l1 out fs.
Proof.
  intros Hne. unfold evaluation_dataset_preprocessor.
  rewrite !try_body_nonempty by (by destruct l1).
  destruct (source_loop l1 (Path out) (State fs [] [])) as [[e | []] st] eqn:Hl1.
  - intros _. by rewrite (source_loop_fails_app _ l2 _ _ _ _ Hl1).
  - intros Hret. by destruct Hret.
Qed.

Lemma preprocess_file_logged (uri out : pystr) (st : state) :
  logged_sources (events (preprocess_file uri out st).2) = logged_sources (events st).
Proof.
  rewrite preprocess_file_eq.
  destruct (files st !! Path uri) as [text | ]; [ | done].
  destruct (line_loop (splitlines text) [] 0) as [e | r]; [done | ].
  cbn zeta. destruct (encodable r.1); [destruct (r.2 =? 0) | ];
    cbn [snd events]; unfold logged_sources;
    rewrite omap_app; simpl; by rewrite app_nil_r.
Qed.

Lemma source_loop_logged (srcs : list pystr) (out : pystr) (st : state) :
  exists seen,
    logged_sources (events (source_loop srcs out st).2) =
      logged_sources (events st) ++ seen
    /\ seen `prefix_of` srcs
    /\ ((source_loop srcs out st).1 = inr tt -> seen = srcs).
Proof.
  revert st. induction srcs as [ | uri srcs IH ]; intros st.
  - exists []. simpl. by rewrite app_nil_r.
  - rewrite source_loop_cons.
    set (st0 := State (files st) (output_dirs st) (events st ++ [LogProcessing uri])).
    pose proof (preprocess_file_logged uri out st0) as Hfile.
    assert (logged_sources (events st0) = logged_sources (events st) ++ [uri]) as Hst0.
    { subst st0. cbn [events]. unfold logged_sources. by rewrite omap_app. }
    destruct (preprocess_file uri out st0) as [[e | []] st1]; cbn [fst snd] in *.
    + exists [uri]. rewrite Hfile, Hst0. split; [done | ].
      split; [by apply (prefix_app_r [uri] [uri] srcs) | done].
    + destruct (IH st1) as (seen & Hseen & Hprefix & Hall).
      exists (uri :: seen). rewrite Hseen, Hfile, Hst0, <- app_assoc.
      split; [done | ]. split; [by apply prefix_cons | ].
      intros Hok. by rewrite (Hall Hok).
Qed.

(** X8.  The sources are processed one at a time in the order given: the
    sources announced in the log are an initial part of the list of
    sources, each announced once, and all of the list when the component
    returns. *)
Theorem logged_sources_follow_the_input
    (srcs : list pystr) (out : pystr) (fs : gmap pystr pystr) :
  logged_sources (events (evaluation_dataset_preprocessor srcs out fs).2)
    `prefix_of` srcs
  /\ ((evaluation_dataset_preprocessor srcs out fs).1 = Returned ->
      logged_sources (events (evaluation_dataset_preprocessor srcs out fs).2) = srcs).
Proof.
  destruct srcs as [ | uri srcs ].
  - rewrite run_without_sources. by cbn.
  - unfold evaluation_dataset_preprocessor.
    rewrite try_body_nonempty by done.
    destruct (source_loop_logged (uri :: srcs) (Path out) (State fs [] []))
      as (seen & Hseen & Hprefix & Hall).
    destruct (source_loop (uri :: srcs) (Path out) (State fs [] [])) as [[e | []] st];
      cbn [fst snd events] in *.
    + destruct (is_ValueError e); cbn [fst snd emit events].
      * by rewrite Hseen.
      * unfold logged_sources in *. rewrite omap_app, Hseen. simpl.
        by rewrite app_nil_r.
    + unfold logged_sources in *. rewrite omap_app, Hseen. simpl.
      rewrite app_nil_r. split; [done | ]. intros _. by apply Hall.
Qed.

(** ** What the run writes *)

Lemma preprocess_file_frame (uri out q : pystr) (st : state) :
  output_file_path_of uri out ≠ q ->
  files (preprocess_file uri out st).2 !! q = files st !! q.
Proof.
  intros Hq. rewrite preprocess_file_eq.
  destruct (files st !! Path uri) as [text | ]; [ | done].
  destruct (line_loop (splitlines text) [] 0) as [e | r]; [done | ].
  cbn zeta. destruct (encodable r.1); [destruct (r.2 =? 0) | ];
    cbn [snd files]; by rewrite lookup_insert_ne.
Qed.

Lemma source_loop_frame (srcs : list pystr) (out q : pystr) (st : state) :
  Forall (fun uri => output_file_path_of uri out ≠ q) srcs ->
  files (source_loop srcs out st).2 !! q = files st !! q.
Proof.
  intros Hall. revert st.
  induction Hall as [ | uri srcs Huri _ IH ]; intros st; [done | ].
  rewrite source_loop_cons.
  set (st0 := State (files st) (output_dirs st) (events st ++ [LogProcessing uri])).
  pose proof (preprocess_file_frame uri out q st0 Huri) as Hfile.
  destruct (preprocess_file uri out st0) as [[e | []] st1]; cbn [snd] in *.
  - by rewrite Hfile.
  - by rewrite IH, Hfile.
Qed.

(** X9.  The run writes nowhere but at the paths derived from its sources
    and at the path of the manifest: whatever the outcome, a path of the
    store that is none of these holds at the end what it held at the start
    (so the sources are left as they were, unless one of them lies at such a
    path). *)
Theorem store_is_untouched_elsewhere
    (srcs : list pystr) (out q : pystr) (fs : gmap pystr pystr) :
  Forall (fun uri => output_file_path_of uri (Path out) ≠ q) srcs ->
  Path out ≠ q ->
  files (evaluation_dataset_preprocessor srcs out fs).2 !! q = fs !! q.
Proof.
  intros Hall Hout. destruct srcs as [ | uri srcs ].
  - rewrite run_without_sources. cbn [snd files]. by rewrite lookup_insert_ne.
  - unfold evaluation_dataset_preprocessor.
    rewrite try_body_nonempty by done.
    pose proof (source_loop_frame (uri :: srcs) (Path out) q (State fs [] []) Hall)
      as Hloop.
    destruct (source_loop (uri :: srcs) (Path out) (State fs [] [])) as [[e | []] st];
      cbn [snd files] in *.
    + by destruct (is_ValueError e).
    + by rewrite lookup_insert_ne.
Qed.
End source_order.

(** ** The entries of the manifest *)

Lemma prefixb_app (old s : pystr) : prefixb old (old ++ s) = true.
Proof. induction old as [ | c old IH ]; simpl; [done | ]. by rewrite N.eqb_refl. Qed.

Lemma replace_first_prefix (old new s : pystr) :
  old ≠ [] -> replace_first old new (old ++ s) = new ++ s.
Proof.
  intros Hold. destruct old as [ | c old ]; [done | ].
  change (replace_first (c :: old) new ((c :: old) ++ s))
    with (if prefixb (c :: old) ((c :: old) ++ s)
          then new ++ drop (length (c :: old)) ((c :: old) ++ s)
          else c :: replace_first (c :: old) new (old ++ s)).
  by rewrite prefixb_app, drop_app_length.
Qed.

Lemma replace_first_absent (old new s : pystr) :
  substrb old s = false -> replace_first old new s = s.
Proof.
  induction s as [ | c s IH ]; simpl; [done | ].
  intros [Hprefix Hrest]%orb_false_elim. rewrite Hprefix. by rewrite IH.
Qed.

Section manifest_entries.
Context `{PathLib}.

(** X10.  The entry of the manifest for a source (line 84).  If the path of
    the output file starts with [/gcs/], the entry is that path with
    [gs://] in place of this prefix, and a later [/gcs/] in it stays; if
    [/gcs/] does not occur in the path, the entry is the path itself. *)
Theorem manifest_entry_rewrites_the_mount_prefix (uri out : pystr) :
  (forall rest,
     output_file_path_of uri out = py "/gcs/" ++ rest ->
     derived_dir uri out = py "gs://" ++ rest)
  /\ (substrb (py "/gcs/") (output_file_path_of uri out) = false ->
      derived_dir uri out = output_file_path_of uri out).
Proof.
  unfold derived_dir. split.
  - intros rest ->. by apply replace_first_prefix.
  - apply replace_first_absent.
Qed.
End manifest_entries.

(** X11.  The manifest is written by [json.dumps] with its default
    [ensure_ascii]: whatever characters the entries hold, the text of the
    manifest has none outside [' '..'~'] (a character outside is written as
    a [\u] escape), while the same character in a record of an output file
    is written as itself. *)
Theorem manifest_text_is_ascii (dirs : list pystr) :
  printable_ascii (manifest_text dirs)
  /\ forall c, 127 <= c ->
       ~ printable_ascii (dumps false (JStr [c]))
       /\ printable_ascii (dumps true (JStr [c])).
Proof.
  split; [apply dumps_true_printable | ].
  intros c Hc. split; [ | apply dumps_true_printable].
  cbn [dumps]. unfold encode_str. simpl.
  rewrite escape_char_literal by lia. simpl.
  intros Hall. inversion Hall as [ | ? ? _ Hrest ]; subst.
  inversion Hrest as [ | ? ? Hbad _ ]; subst. lia.
Qed.

(** ** The output file of a source *)

Lemma jsonl_last (records : list json) :
  records ≠ [] -> last (jsonl records) = Some 10.
Proof.
  intros Hne. destruct (exists_last Hne) as (front & r & ->).
  rewrite jsonl_app. unfold jsonl at 2. simpl. rewrite app_nil_r, !app_assoc.
  apply last_snoc.
Qed.

Section output_file.
Context `{JsonDecoder} `{PathLib}.

(** X12.  When [preprocess_file] ends without an exception, the file it
    wrote holds at least one record: its text is the line of each of its
    normalized records, so it is not empty and ends with a line feed, and
    the one entry appended to [output_dirs] is the entry derived from the
    source. *)
Theorem processed_source_leaves_records
    (uri out : pystr) (st st' : state) :
  preprocess_file uri out st = (inr tt, st') ->
  exists records,
    records ≠ []
    /\ Forall (fun r => exists o, normalize o = ok r) records
    /\ files st' !! output_file_path_of uri out =
         Some (concat (map (fun r => dumps false r ++ [10]) records))
    /\ last (concat (map (fun r => dumps false r ++ [10]) records)) = Some 10
    /\ output_dirs st' = output_dirs st ++ [derived_dir uri out].
Proof.
  rewrite preprocess_file_eq.
  destruct (files st !! Path uri) as [text | ]; [ | discriminate].
  destruct (line_loop (splitlines text) [] 0) as [e | [content n]] eqn:Hloop;
    [discriminate | ].
  cbn zeta. cbn [fst snd]. destruct (encodable content); [ | discriminate].
  destruct (n =? 0) eqn:Hn; [discriminate | ].
  intros [= <-]. cbn [files output_dirs].
  apply line_loop_inv in Hloop as (records & -> & -> & Hrecords).
  assert (records ≠ []) as Hne.
  { intros ->. by apply N.eqb_neq in Hn. }
  exists records. split; [done | ]. split; [done | ].
  split; [by rewrite lookup_insert_eq | ]. split; [by apply jsonl_last | done].
Qed.

(** X13.  The path of an output file is made of the base name of the
    source alone.  Two sources of the same base name, processed one after
    the other, share one output file: when the component returns, the
    manifest lists the same entry twice and the file holds the records of
    the second source only. *)
Theorem sources_of_one_name_share_an_output_file
    (u1 u2 out : pystr) (fs : gmap pystr pystr) (st : state) :
  name (Path u1) = name (Path u2) ->
  output_file_path_of u2 (Path out) ≠ Path out ->
  evaluation_dataset_preprocessor [u1; u2] out fs = (Returned, st) ->
  output_file_path_of u1 (Path out) = output_file_path_of u2 (Path out)
  /\ output_dirs st = [derived_dir u2 (Path out); derived_dir u2 (Path out)]
  /\ exists st1 text content n,
       preprocess_file u1 (Path out) (State fs [] [LogProcessing u1]) = (inr tt, st1)
       /\ files st1 !! Path u2 = Some text
       /\ line_loop (splitlines text) [] 0 = inr (content, n)
       /\ files st !! output_file_path_of u2 (Path out) = Some content.
Proof.
  intros Hname Hout.
  assert (output_file_path_of u1 (Path out) = output_file_path_of u2 (Path out))
    as Hpath by (unfold output_file_path_of; by rewrite Hname).
  assert (derived_dir u1 (Path out) = derived_dir u2 (Path out)) as Hdir
    by (unfold derived_dir; by rewrite Hpath).
  unfold evaluation_dataset_preprocessor.
  rewrite try_body_nonempty by done. rewrite source_loop_cons.
  cbn [files output_dirs events app].
  destruct (preprocess_file u1 (Path out) (State fs [] [LogProcessing u1]))
    as [[e | []] st1] eqn:Hfirst; [by destruct (is_ValueError e) | ].
  pose proof (preprocess_file_events u1 (Path out) (State fs [] [LogProcessing u1]))
    as (_ & _ & _ & Hdirs1).
  rewrite Hfirst in Hdirs1. cbn [fst snd output_dirs] in Hdirs1.
  specialize (Hdirs1 eq_refl).
  rewrite source_loop_cons, preprocess_file_eq. cbn [files output_dirs events].
  destruct (files st1 !! Path u2) as [text | ] eqn:Htext; [ | discriminate].
  destruct (line_loop (splitlines text) [] 0) as [e | [content n]] eqn:Hloop;
    [by destruct (is_ValueError e) | ].
  cbn zeta. cbn [fst snd]. destruct (encodable content); [ | discriminate].
  destruct (n =? 0); [discriminate | ].
  cbn [source_loop]. unfold pure. intros [= <-]. cbn [output_dirs files].
  split; [done | ]. split; [by rewrite Hdirs1, Hdir | ].
  exists st1, text, content, n. split; [done | ]. split; [done | ].
  split; [done | ]. rewrite lookup_insert_ne by done. by rewrite lookup_insert_eq.
Qed.
End output_file.

(** ** Transcoding an output file again *)

Lemma splitlines_from_line (cur a s : pystr) :
  one_line a ->
  splitlines_from cur (a ++ 10 :: s) = (rev cur ++ a) :: splitlines_from [] s.
Proof.
  intros Ha. revert cur.
  induction Ha as [ | c a Hc _ IH ]; intros cur.
  - rewrite app_nil_r. simpl. by destruct s.
  - simpl. rewrite Hc, IH. simpl. by rewrite <- app_assoc.
Qed.

Lemma splitlines_jsonl (records : list json) :
  Forall (fun r => one_line (dumps false r)) records ->
  splitlines (jsonl records) = map (dumps false) records.
Proof.
  unfold splitlines. induction 1 as [ | r records Hr _ IH ]; [done | ].
  change (jsonl (r :: records)) with ((dumps false r ++ [10]) ++ jsonl records).
  rewrite <- app_assoc. simpl.
  rewrite splitlines_from_line by done. simpl. by rewrite IH.
Qed.

Lemma strip_clean_ends (a b : N) (mid : pystr) :
  is_space a = false -> is_space b = false ->
  strip (a :: mid ++ [b]) = a :: mid ++ [b].
Proof.
  intros Ha Hb. unfold strip. simpl lstrip at 2. rewrite Ha.
  replace (rev (a :: mid ++ [b])) with (b :: rev mid ++ [a])
    by (simpl; by rewrite rev_app_distr).
  simpl lstrip. rewrite Hb. simpl. rewrite rev_app_distr. simpl.
  by rewrite rev_involutive.
Qed.

Lemma dumps_mapping_stripped (d : dict) :
  strip (dumps false (JObj d)) = dumps false (JObj d)
  /\ dumps false (JObj d) ≠ [].
Proof.
  cbn [dumps].
  change (py "{" ++ join (py ", ")
            (map (fun p => encode_str false p.1 ++ py ": " ++ dumps false p.2) d) ++
          py "}")
    with (123 :: join (py ", ")
            (map (fun p => encode_str false p.1 ++ py ": " ++ dumps false p.2) d) ++
          [125]).
  split; [by apply strip_clean_ends | done].
Qed.

Section rerun.
Context `{JsonDecoder}.

(** X14.  Transcoding an output file again gives the same file.  It holds
    for records that are mappings as normalization leaves them, without a
    [data] field, whose texts hold none of the characters [str.splitlines]
    breaks at, and which [json.loads] reads back from their text: the loop
    over the lines of their output body rebuilds that body and counts the
    same records. *)
Theorem output_body_transcodes_to_itself (records : list dict) :
  Forall (fun d => dict_get d DATA_KEY = None) records ->
  Forall (fun d => promoted d = d) records ->
  Forall (fun d => one_line (dumps false (JObj d))) records ->
  Forall (fun d => loads (dumps false (JObj d)) = Some (JObj d)) records ->
  let body := concat (map (fun d => dumps false (JObj d) ++ [10]) records) in
  splitlines body = map (fun d => dumps false (JObj d)) records
  /\ line_loop (splitlines body) [] 0 = inr (body, N.of_nat (length records)).
Proof.
  intros Hdata Hnorm Hline Hloads body.
  assert (body = jsonl (map JObj records)) as Hbody
    by (subst body; unfold jsonl; by rewrite map_map).
  assert (splitlines body = map (fun d => dumps false (JObj d)) records) as Hsplit.
  { rewrite Hbody, splitlines_jsonl by (by apply Forall_fmap).
    by rewrite map_map. }
  split; [done | ]. rewrite Hsplit.
  assert (forall content n,
            line_loop (map (fun d => dumps false (JObj d)) records) content n =
            inr (content ++ jsonl (map JObj records),
                 n + N.of_nat (length records))) as Hgen.
  { clear Hbody Hsplit body.
    induction records as [ | d records IH ]; intros content n.
    - unfold jsonl. simpl. by rewrite app_nil_r, N.add_0_r.
    - apply Forall_cons in Hdata as [Hd Hdata].
      apply Forall_cons in Hnorm as [Hn Hnorm].
      apply Forall_cons in Hline as [_ Hline].
      apply Forall_cons in Hloads as [Hl Hloads].
      rewrite map_cons. destruct (dumps_mapping_stripped d) as [Hstrip Hne].
      rewrite line_loop_line by (by rewrite Hstrip).
      rewrite Hstrip. unfold json_loads. rewrite Hl. unfold ok. cbn [bind_exn].
      unfold data_objs. rewrite Hd. unfold ok. cbn [bind_exn data_obj_loop].
      rewrite normalize_dict, Hn. unfold ok. cbn [bind_exn fst snd].
      rewrite (IH Hdata Hnorm Hline Hloads).
      change (jsonl (map JObj (d :: records)))
        with ((dumps false (JObj d) ++ [10]) ++ jsonl (map JObj records)).
      cbn [length]. f_equal. f_equal; [by rewrite <- !app_assoc | lia]. }
  rewrite Hgen. rewrite Hbody. by rewrite N.add_0_l.
Qed.
End rerun.

(** ** How the component can end *)

Section outcomes.
Context `{JsonDecoder} `{PathLib}.



(** X16.  Nothing is undone when a source raises.  The sources before it
    having raised nothing, whatever they left in the store is there at the
    end, at every path but the path of the output file of the failing
    source; and the events up to then are the first events of the run. *)
Theorem outputs_before_a_failure_stay
    (pre : list pystr) (uri : pystr) (post : list pystr) (out : pystr)
    (fs : gmap pystr pystr) (st1 st2 : state) (e : exn) (q : pystr) :
  source_loop pre (Path out) (State fs [] []) = (inr tt, st1) ->
  preprocess_file uri (Path out)
    (State (files st1) (output_dirs st1) (events st1 ++ [LogProcessing uri])) =
    (inl e, st2) ->
  output_file_path_of uri (Path out) ≠ q ->
  files (evaluation_dataset_preprocessor (pre ++ uri :: post) out fs).2 !! q =
    files st1 !! q
  /\ events st1 `prefix_of`
       events (evaluation_dataset_preprocessor (pre ++ uri :: post) out fs).2.
Proof.
  intros Hpre Hfile Hq.
  rewrite (run_stops_at_failing_source pre uri post out fs st1 st2 e Hpre Hfile).
  pose proof (preprocess_file_frame uri (Path out) q
                (State (files st1) (output_dirs st1) (events st1 ++ [LogProcessing uri]))
                Hq) as Hframe.
  destruct (preprocess_file_events uri (Path out)
              (State (files st1) (output_dirs st1) (events st1 ++ [LogProcessing uri])))
    as (evs & Hevs & _ & _).
  rewrite Hfile in Hframe, Hevs. cbn [snd files events] in Hframe, Hevs.
  destruct (is_ValueError e); cbn [snd files events]; rewrite Hevs;
    (split; [done | ]); rewrite <- !app_assoc; by apply prefix_app_r.
Qed.
End outcomes.

(** ** A body that cannot be written *)

Section unencodable.
Context `{JsonDecoder} `{PathLib}.

(** X17.  A source whose lines are processed without an exception but
    whose body cannot be encoded (a record holds a lone surrogate), the
    sources before it having raised nothing: the write of line 76 raises
    [UnicodeEncodeError], a [ValueError], so the component re-raises it
    instead of exiting with status 13; the output file is left empty, no
    entry is appended and no manifest is written. *)
Theorem unencodable_body_is_reraised
    (pre : list pystr) (uri : pystr) (post : list pystr) (out : pystr)
    (fs : gmap pystr pystr) (st1 : state) (text content : pystr) (n : N) :
  source_loop pre (Path out) (State fs [] []) = (inr tt, st1) ->
  files st1 !! Path uri = Some text ->
  line_loop (splitlines text) [] 0 = inr (content, n) ->
  encodable content = false ->
  evaluation_dataset_preprocessor (pre ++ uri :: post) out fs =
    (Raised (UnicodeEncodeError content),
     State (<[output_file_path_of uri (Path out) := []]> (files st1))
       (output_dirs st1)
       (events st1 ++
        [LogProcessing uri; WriteOutputFile (output_file_path_of uri (Path out)) []])).
Proof.
  intros Hpre Htext Hloop Henc.
  rewrite (run_stops_at_failing_source pre uri post out fs st1
             (State (<[output_file_path_of uri (Path out) := []]> (files st1))
                (output_dirs st1)
                (events st1 ++
                 [LogProcessing uri;
                  WriteOutputFile (output_file_path_of uri (Path out)) []]))
             (UnicodeEncodeError content) Hpre); [done | ].
  rewrite preprocess_file_eq. cbn [files output_dirs events].
  rewrite Htext, Hloop. cbn [fst snd]. rewrite Henc. by rewrite <- app_assoc.
Qed.
End unencodable.

(** * The further properties on the inputs of [Edge] *)

Lemma missing_source_exits_13_witness :
  (Edge.run [Edge.first_uri; Edge.missing_uri; Edge.second_uri]).1 = Exited 13.
Proof.
  refine (f_equal fst
    (@missing_source_exits_13 Edge.decoder plain_paths
       [Edge.first_uri] Edge.missing_uri [Edge.second_uri] Edge.manifest_path
       Edge.store
       (@source_loop Edge.decoder plain_paths [Edge.first_uri]
          Edge.manifest_path (State Edge.store [] [])).2 _ _)).
  - vm_compute. reflexivity.
  - vm_compute. reflexivity.
Defined.

Lemma non_mapping_line_exits_13_witness :
  (Edge.run [Edge.array_uri]).1 = Exited 13.
Proof.
  refine (f_equal fst (proj2
    (@non_mapping_line_exits_13 Edge.decoder plain_paths
       [] Edge.array_uri [] Edge.manifest_path Edge.store (State Edge.store [] [])
       (jtext "[1, 2]" ++ [10]) [] (jtext "[1, 2]") [] ([], 0)
       (JArr [JInt 1; JInt 2]) _ _ _ _ _ _ _))).
  - reflexivity.
  - vm_compute. reflexivity.
  - vm_compute. reflexivity.
  - reflexivity.
  - vm_compute. discriminate.
  - vm_compute. reflexivity.
  - discriminate.
Defined.

Lemma normalize_by_type_witness :
  normalize (JInt 7) = inl TypeError
  /\ exists d', normalize Demo.hello = ok (JObj d').
Proof.
  split.
  - exact (proj1 (proj2 (normalize_by_type (JInt 7))) eq_refl).
  - exact (proj1 (normalize_by_type Demo.hello) _ eq_refl).
Defined.

Lemma data_string_gives_one_record_per_character_witness :
  @line_loop Edge.decoder [jtext "{'data': 'ab'}"] [] 0 =
    inr (jtext "'a'" ++ [10] ++ jtext "'b'" ++ [10], 2).
Proof.
  refine (eq_trans
    (proj1 (@data_string_gives_one_record_per_character Edge.decoder
       (jtext "{'data': 'ab'}") [] [] 0 [(py "data", JStr (py "ab"))] (py "ab")
       _ _ _)) _).
  - vm_compute. discriminate.
  - vm_compute. reflexivity.
  - vm_compute. reflexivity.
  - vm_compute. reflexivity.
Defined.

Lemma scalar_in_data_list_drops_the_file_witness :
  @preprocess_file Edge.decoder plain_paths Edge.scalar_uri Edge.manifest_path
    (State Edge.store [] []) = (inl TypeError, State Edge.store [] []).
Proof.
  refine (proj1
    (@scalar_in_data_list_drops_the_file Edge.decoder plain_paths
       Edge.scalar_uri Edge.manifest_path (State Edge.store [] [])
       (jtext "{'data': [{'prompt': 'p'}, 7]}" ++ [10])
       [] (jtext "{'data': [{'prompt': 'p'}, 7]}") [] ([], 0)
       [(py "data", JArr [JObj [(py "prompt", JStr (py "p"))]; JInt 7])]
       [JObj [(py "prompt", JStr (py "p"))]; JInt 7] _ _ _ _ _ _ _)).
  - vm_compute. reflexivity.
  - vm_compute. reflexivity.
  - reflexivity.
  - vm_compute. discriminate.
  - vm_compute. reflexivity.
  - vm_compute. reflexivity.
  - apply Exists_cons_tl, Exists_cons_hd. reflexivity.
Defined.

Lemma sources_after_a_failure_do_not_matter_witness :
  Edge.run [Edge.array_uri; Edge.first_uri] = Edge.run [Edge.array_uri].
Proof.
  refine (@sources_after_a_failure_do_not_matter Edge.decoder plain_paths
            [Edge.array_uri] [Edge.first_uri] Edge.manifest_path Edge.store _ _).
  - discriminate.
  - vm_compute. discriminate.
Defined.

Lemma logged_sources_follow_the_input_witness :
  logged_sources (events (Edge.run [Edge.first_uri; Edge.second_uri]).2) =
    [Edge.first_uri; Edge.second_uri].
Proof.
  refine (proj2
    (@logged_sources_follow_the_input Edge.decoder plain_paths
       [Edge.first_uri; Edge.second_uri] Edge.manifest_path Edge.store) _).
  vm_compute. reflexivity.
Defined.

Lemma store_is_untouched_elsewhere_witness :
  files (Edge.run [Edge.first_uri]).2 !! Edge.first_uri = Edge.store !! Edge.first_uri.
Proof.
  refine (@store_is_untouched_elsewhere Edge.decoder plain_paths
            [Edge.first_uri] Edge.manifest_path Edge.first_uri Edge.store _ _).
  - constructor; [ | constructor]. vm_compute. discriminate.
  - vm_compute. discriminate.
Defined.

Lemma manifest_entry_rewrites_the_mount_prefix_witness :
  @derived_dir plain_paths Edge.first_uri Edge.manifest_path = py "gs://b/out/x.jsonl".
Proof.
  refine (proj1
    (@manifest_entry_rewrites_the_mount_prefix plain_paths
       Edge.first_uri Edge.manifest_path) (py "b/out/x.jsonl") _).
  vm_compute. reflexivity.
Defined.

Lemma manifest_text_is_ascii_witness :
  ~ printable_ascii (dumps false (JStr [233]))
  /\ printable_ascii (dumps true (JStr [233])).
Proof.
  refine (proj2 (manifest_text_is_ascii []) 233 _). lia.
Defined.

Lemma processed_source_leaves_records_witness :
  exists records,
    records ≠ []
    /\ Forall (fun r => exists o, normalize o = ok r) records
    /\ files (@preprocess_file Edge.decoder plain_paths Edge.first_uri
                Edge.manifest_path (State Edge.store [] [])).2
         !! @output_file_path_of plain_paths Edge.first_uri Edge.manifest_path =
         Some (concat (map (fun r => dumps false r ++ [10]) records))
    /\ last (concat (map (fun r => dumps false r ++ [10]) records)) = Some 10
    /\ output_dirs (@preprocess_file Edge.decoder plain_paths Edge.first_uri
                      Edge.manifest_path (State Edge.store [] [])).2 =
         [] ++ [@derived_dir plain_paths Edge.first_uri Edge.manifest_path].
Proof.
  refine (@processed_source_leaves_records Edge.decoder plain_paths
            Edge.first_uri Edge.manifest_path (State Edge.store [] []) _ _).
  vm_compute. reflexivity.
Defined.

Lemma sources_of_one_name_share_an_output_file_witness :
  output_dirs (Edge.run [Edge.first_uri; Edge.second_uri]).2 =
    [py "gs://b/out/x.jsonl"; py "gs://b/out/x.jsonl"].
Proof.
  assert (Hw := @sources_of_one_name_share_an_output_file Edge.decoder plain_paths
    Edge.first_uri Edge.second_uri Edge.manifest_path Edge.store
    (Edge.run [Edge.first_uri; Edge.second_uri]).2
    ltac:(vm_compute; reflexivity) ltac:(vm_compute; discriminate)
    ltac:(vm_compute; reflexivity)).
  refine (eq_trans (proj1 (proj2 Hw)) _).
  vm_compute. reflexivity.
Defined.

Lemma output_body_transcodes_to_itself_witness :
  @line_loop Edge.decoder
    (splitlines (jtext "{'input_text': 'hello', 'prompt': 'hello'}" ++ [10])) [] 0 =
    inr (jtext "{'input_text': 'hello', 'prompt': 'hello'}" ++ [10], 1).
Proof.
  refine (proj2
    (@output_body_transcodes_to_itself Edge.decoder
       [[(py "input_text", JStr (py "hello")); (py "prompt", JStr (py "hello"))]]
       _ _ _ _)).
  - constructor; [ | constructor]. vm_compute. reflexivity.
  - constructor; [ | constructor]. vm_compute. reflexivity.
  - constructor; [ | constructor].
    apply Forall_forall. intros c Hc. apply list_elem_of_In in Hc.
    vm_compute in Hc. vm_compute.
    repeat (destruct Hc as [<- | Hc]; [reflexivity | ]). destruct Hc.
  - constructor; [ | constructor]. vm_compute. reflexivity.
Defined.

Lemma outputs_before_a_failure_stay_witness :
  files (Edge.run [Edge.first_uri; Edge.array_uri]).2 !! py "/gcs/b/out/x.jsonl" =
    Some (jtext "{'input_text': 'hello', 'prompt': 'hello'}" ++ [10]).
Proof.
  refine (eq_trans (proj1
    (@outputs_before_a_failure_stay Edge.decoder plain_paths
       [Edge.first_uri] Edge.array_uri [] Edge.manifest_path Edge.store
       (@source_loop Edge.decoder plain_paths [Edge.first_uri]
          Edge.manifest_path (State Edge.store [] [])).2
       (@preprocess_file Edge.decoder plain_paths Edge.array_uri Edge.manifest_path
          (State
             (files (@source_loop Edge.decoder plain_paths [Edge.first_uri]
                       Edge.manifest_path (State Edge.store [] [])).2)
             (output_dirs (@source_loop Edge.decoder plain_paths [Edge.first_uri]
                             Edge.manifest_path (State Edge.store [] [])).2)
             (events (@source_loop Edge.decoder plain_paths [Edge.first_uri]
                        Edge.manifest_path (State Edge.store [] [])).2 ++
              [LogProcessing Edge.array_uri]))).2
       AttributeError (py "/gcs/b/out/x.jsonl") _ _ _)) _).
  - vm_compute. reflexivity.
  - vm_compute. reflexivity.
  - vm_compute. discriminate.
  - vm_compute. reflexivity.
Defined.

Lemma unencodable_body_is_reraised_witness :
  (@evaluation_dataset_preprocessor Edge.surrogate_decoder plain_paths
     [Edge.surrogate_uri] Edge.manifest_path Edge.surrogate_store).1 =
    Raised (UnicodeEncodeError (jtext "{'prompt': '" ++ [55296] ++ jtext "'}" ++ [10])).
Proof.
  refine (f_equal fst
    (@unencodable_body_is_reraised Edge.surrogate_decoder plain_paths
       [] Edge.surrogate_uri [] Edge.manifest_path Edge.surrogate_store
       (State Edge.surrogate_store [] []) (Edge.surrogate_line ++ [10])
       (jtext "{'prompt': '" ++ [55296] ++ jtext "'}" ++ [10]) 1 _ _ _ _)).
  - reflexivity.
  - vm_compute. reflexivity.
  - vm_compute. reflexivity.
  - vm_compute. reflexivity.
Defined.

(** The source of one line whose record holds a lone surrogate: the output
    file is left empty, nothing is listed and no manifest is written. *)
Example lone_surrogate_leaves_an_empty_file :
  files (@evaluation_dataset_preprocessor Edge.surrogate_decoder plain_paths
           [Edge.surrogate_uri] Edge.manifest_path Edge.surrogate_store).2
    !! py "/gcs/b/out/s.jsonl" = Some []
  /\ files (@evaluation_dataset_preprocessor Edge.surrogate_decoder plain_paths
              [Edge.surrogate_uri] Edge.manifest_path Edge.surrogate_store).2
       !! Edge.manifest_path = None
  /\ output_dirs
       (@evaluation_dataset_preprocessor Edge.surrogate_decoder plain_paths
          [Edge.surrogate_uri] Edge.manifest_path Edge.surrogate_store).2 = [].
Proof. by vm_compute. Qed.
